(** * Internship portal: row-level policies, application lifecycle, handlers

    A shallow embedding of the portal's datastore schema and row-level
    security policies (the SQL migration), of the client handlers that
    drive it (sign-up, sign-in, apply, accept/reject) and of the
    notification edge function, followed by the properties established
    about them. *)

From Stdlib Require Import ZArith Ascii String.
From stdpp Require Import base decidable option list gmap strings.

Open Scope string_scope.
Open Scope list_scope.

(** ** Values *)

(** [uuid] columns and JS ids are strings; [timestamptz] is a clock tick. *)
Definition uuid := string.
Definition timestamptz := nat.

(** [CREATE TYPE public.app_role AS ENUM ('student', 'admin')] *)
Inductive app_role := student | admin.

Global Instance app_role_eq_dec : EqDecision app_role.
Proof. solve_decision. Defined.

(** ** SQL three-valued logic: [None] is NULL *)

Definition sql_eq {A} `{EqDecision A} (x y : option A) : option bool :=
  match x, y with
  | Some a, Some b => Some (bool_decide (a = b))
  | _, _ => None
  end.

Definition sql_and (x y : option bool) : option bool :=
  match x, y with
  | Some false, _ | _, Some false => Some false
  | Some true, Some true => Some true
  | _, _ => None
  end.

(** A row passes a qualifier only when it evaluates to TRUE (not to FALSE,
    not to NULL). *)
Definition passes (q : option bool) : bool :=
  match q with Some true => true | _ => false end.

(** [COALESCE(x, dflt)] *)
Definition coalesce {A} (x : option A) (dflt : A) : A :=
  match x with Some a => a | None => dflt end.

(** ** Tables *)

Module AuthUser.
(** The columns of [auth.users] the trigger reads.  The metadata is the
    JSON object sent at sign-up; [->>] on it is a lookup that yields NULL
    for an absent key. *)
Record t := mk {
  id : uuid;
  email : option string;
  raw_user_meta_data : gmap string string }.
End AuthUser.

Module Profile.
Record t := mk {
  id : uuid;
  full_name : string;
  email : string;
  student_id : option string;
  department : option string;
  created_at : timestamptz }.
End Profile.

Module UserRole.
Record t := mk {
  id : uuid;
  user_id : uuid;
  role : app_role }.
End UserRole.

Module Internship.
Record t := mk {
  id : uuid;
  company_name : string;
  position_title : string;
  description : string;
  salary : string;
  duration : string;
  required_skills : list string;
  location : string;
  is_active : option bool;
  created_at : timestamptz }.
End Internship.

Module Application.
Record t := mk {
  id : uuid;
  internship_id : uuid;
  student_id : uuid;
  status : option string;
  feedback : option string;
  applied_at : timestamptz;
  updated_at : timestamptz }.

(** The pair constrained by [UNIQUE (internship_id, student_id)]. *)
Definition key (a : t) : uuid * uuid := (internship_id a, student_id a).
End Application.

Record db := Db {
  auth_users : list AuthUser.t;
  profiles : list Profile.t;
  user_roles : list UserRole.t;
  internships : list Internship.t;
  applications : list Application.t }.

(** The state right after the migration: empty tables and the postings it
    inserts. *)
Definition fresh_db (sample : list Internship.t) : db :=
  Db [] [] [] sample [].

(** ** Errors and results of a statement *)

Inductive db_error :=
  | unique_violation (constraint : string)
  | check_violation (constraint : string)
  | not_null_violation (column : string)
  | foreign_key_violation (constraint : string)
  | rls_violation (table : string).

Global Instance db_error_eq_dec : EqDecision db_error.
Proof. solve_decision. Defined.

Inductive result (A : Type) :=
  | Ok (a : A)
  | Err (e : db_error).
Arguments Ok {A} a.
Arguments Err {A} e.

Global Instance result_ret : MRet result := fun _ a => Ok a.
Global Instance result_bind : MBind result := fun _ _ k r =>
  match r with Ok a => k a | Err e => Err e end.

Definition guard_or (e : db_error) (ok : bool) : result unit :=
  if ok then Ok tt else Err e.

(** A statement runs in a transaction: when it fails, the state the other
    sessions observe is the one before it. *)
Definition commit (d : db) (r : result db) : db :=
  match r with Ok d' => d' | Err _ => d end.

(** ** Sessions and policies *)

(** [auth.uid()] and [auth.role()] of the request. *)
Record session := Session {
  auth_uid : option uuid;
  auth_role : string }.

Inductive command := SELECT | INSERT | UPDATE | DELETE | ALL.

Global Instance command_eq_dec : EqDecision command.
Proof. solve_decision. Defined.

Definition qual (R : Type) := session -> db -> R -> option bool.

Record policy (R : Type) := Policy {
  pol_name : string;
  pol_for : command;
  pol_using : option (qual R);
  pol_with_check : option (qual R) }.
Arguments Policy {R} _ _ _ _.
Arguments pol_name {R} _.
Arguments pol_for {R} _.
Arguments pol_using {R} _.
Arguments pol_with_check {R} _.

Definition applies_to {R} (c : command) (p : policy R) : bool :=
  bool_decide (pol_for p = ALL) || bool_decide (pol_for p = c).

(** The USING qualifiers of the policies that apply to a command; they are
    permissive, hence OR-ed, and no qualifier at all denies. *)
Definition using_quals {R} (c : command) (ps : list (policy R)) : list (qual R) :=
  omap pol_using (List.filter (applies_to c) ps).

(** A policy without WITH CHECK checks new rows with its USING qualifier. *)
Definition check_quals {R} (c : command) (ps : list (policy R)) : list (qual R) :=
  omap (fun p => match pol_with_check p with
                 | Some q => Some q
                 | None => pol_using p
                 end)
       (List.filter (applies_to c) ps).

Definition row_visible {R} (c : command) (ps : list (policy R))
    (s : session) (d : db) (r : R) : bool :=
  existsb (fun q => passes (q s d r)) (using_quals c ps).

Definition row_allowed {R} (c : command) (ps : list (policy R))
    (s : session) (d : db) (r : R) : bool :=
  existsb (fun q => passes (q s d r)) (check_quals c ps).

(** ** [user_roles] and [has_role] *)

(** [auth.uid() = user_id] *)
Definition own_role_row : qual UserRole.t :=
  fun s _ r => sql_eq (auth_uid s) (Some (UserRole.user_id r)).

Definition user_roles_policies : list (policy UserRole.t) :=
  [ Policy "Users can view their own roles" SELECT (Some own_role_row) None ].

Definition select_user_roles (s : session) (d : db) : list UserRole.t :=
  List.filter (row_visible SELECT user_roles_policies s d) (user_roles d).

(** A function reads a table as its owner (row security does not apply)
    when it is SECURITY DEFINER, and as the caller otherwise. *)
Inductive security := SECURITY_INVOKER | SECURITY_DEFINER.

Definition user_roles_read_as (sec : security) (s : session) (d : db)
    : list UserRole.t :=
  match sec with
  | SECURITY_DEFINER => user_roles d
  | SECURITY_INVOKER => select_user_roles s d
  end.

(** [SELECT EXISTS (SELECT 1 FROM public.user_roles
                   WHERE user_id = _user_id AND role = _role)] *)
Definition has_role_body (rows : list UserRole.t)
    (_user_id : option uuid) (_role : option app_role) : bool :=
  existsb (fun r =>
             passes (sql_and (sql_eq (Some (UserRole.user_id r)) _user_id)
                             (sql_eq (Some (UserRole.role r)) _role)))
          rows.

Definition has_role_with (sec : security) (s : session) (d : db)
    (_user_id : option uuid) (_role : option app_role) : bool :=
  has_role_body (user_roles_read_as sec s d) _user_id _role.

(** [public.has_role] is declared STABLE SECURITY DEFINER; [s] is the
    session in which a policy calls it. *)
Definition has_role (s : session) (d : db)
    (_user_id : option uuid) (_role : option app_role) : bool :=
  has_role_with SECURITY_DEFINER s d _user_id _role.

(** A query is a read of the state; run as a statement it returns its value
    and the state it was given. *)
Definition run_query {A} (q : db -> A) (d : db) : result (A * db) :=
  Ok (q d, d).

(** ** Policies of the other tables *)

(** [auth.uid() = id] *)
Definition own_profile : qual Profile.t :=
  fun s _ r => sql_eq (auth_uid s) (Some (Profile.id r)).

(** [auth.role() = 'authenticated' AND is_active = true] *)
Definition authenticated_and_active : qual Internship.t :=
  fun s _ r =>
    sql_and (sql_eq (Some (auth_role s)) (Some "authenticated"))
            (sql_eq (Internship.is_active r) (Some true)).

(** [public.has_role(auth.uid(), 'admin')] *)
Definition caller_is_admin {R} : qual R :=
  fun s d _ => Some (has_role s d (auth_uid s) (Some admin)).

(** [auth.uid() = student_id] *)
Definition own_application : qual Application.t :=
  fun s _ r => sql_eq (auth_uid s) (Some (Application.student_id r)).

(** [auth.uid() = student_id AND status = 'pending'] *)
Definition own_pending_application : qual Application.t :=
  fun s _ r =>
    sql_and (sql_eq (auth_uid s) (Some (Application.student_id r)))
            (sql_eq (Application.status r) (Some "pending")).

Definition profiles_policies : list (policy Profile.t) :=
  [ Policy "Users can view their own profile" SELECT (Some own_profile) None;
    Policy "Users can update their own profile" UPDATE (Some own_profile) None ].

Definition internships_policies : list (policy Internship.t) :=
  [ Policy "Anyone authenticated can view active internships" SELECT
      (Some authenticated_and_active) None;
    Policy "Admins can manage internships" ALL (Some caller_is_admin) None ].

Definition applications_policies : list (policy Application.t) :=
  [ Policy "Students can view their own applications" SELECT
      (Some own_application) None;
    Policy "Students can create their own applications" INSERT
      None (Some own_pending_application);
    Policy "Admins can view all applications" SELECT
      (Some caller_is_admin) None;
    Policy "Admins can update applications" UPDATE
      (Some caller_is_admin) None ].

(** ** Reads *)

(** [SELECT * FROM public.internships] as the session sees it. *)
Definition select_internships (s : session) (d : db) : list Internship.t :=
  List.filter (row_visible SELECT internships_policies s d) (internships d).

Definition select_applications (s : session) (d : db) : list Application.t :=
  List.filter (row_visible SELECT applications_policies s d) (applications d).

(** The session can read a posting when the posting is among the rows a
    SELECT returns to it. *)
Definition can_read_internship (s : session) (d : db) (i : Internship.t) : Prop :=
  i ∈ select_internships s d.

(** ** Writes *)

Definition set_auth_users (d : db) (l : list AuthUser.t) : db :=
  Db l (profiles d) (user_roles d) (internships d) (applications d).
Definition set_profiles (d : db) (l : list Profile.t) : db :=
  Db (auth_users d) l (user_roles d) (internships d) (applications d).
Definition set_user_roles (d : db) (l : list UserRole.t) : db :=
  Db (auth_users d) (profiles d) l (internships d) (applications d).
Definition set_internships (d : db) (l : list Internship.t) : db :=
  Db (auth_users d) (profiles d) (user_roles d) l (applications d).
Definition set_applications (d : db) (l : list Application.t) : db :=
  Db (auth_users d) (profiles d) (user_roles d) (internships d) l.

(** [INSERT INTO public.profiles (id, full_name, email, student_id,
    department) VALUES (...)]: NOT NULL columns, then the primary key and
    the UNIQUE column (NULLs never collide), then the reference to
    [auth.users]. *)
Definition insert_profile (id : uuid) (full_name email : option string)
    (student_id department : option string) (now : timestamptz) (d : db)
    : result db :=
  match full_name, email with
  | None, _ => Err (not_null_violation "full_name")
  | _, None => Err (not_null_violation "email")
  | Some fn, Some em =>
    _ ← guard_or (unique_violation "profiles_pkey")
          (negb (existsb (fun p => bool_decide (Profile.id p = id)) (profiles d)));
    _ ← guard_or (unique_violation "profiles_student_id_key")
          (negb (existsb (fun p => passes (sql_eq (Profile.student_id p) student_id))
                         (profiles d)));
    _ ← guard_or (foreign_key_violation "profiles_id_fkey")
          (existsb (fun u => bool_decide (AuthUser.id u = id)) (auth_users d));
    Ok (set_profiles d
          (profiles d ++ [Profile.mk id fn em student_id department now]))
  end.

(** [INSERT INTO public.user_roles (user_id, role) VALUES (...)]; [rid] is
    the value [gen_random_uuid()] draws for the [id] column. *)
Definition insert_user_role (rid : uuid) (user_id : uuid) (role : app_role)
    (d : db) : result db :=
  _ ← guard_or (unique_violation "user_roles_pkey")
        (negb (existsb (fun r => bool_decide (UserRole.id r = rid)) (user_roles d)));
  _ ← guard_or (unique_violation "user_roles_user_id_role_key")
        (negb (existsb (fun r => bool_decide (UserRole.user_id r = user_id)
                                 && bool_decide (UserRole.role r = role))
                       (user_roles d)));
  _ ← guard_or (foreign_key_violation "user_roles_user_id_fkey")
        (existsb (fun p => bool_decide (Profile.id p = user_id)) (profiles d));
  Ok (set_user_roles d (user_roles d ++ [UserRole.mk rid user_id role])).

(** The trigger function [public.handle_new_user()], run on the row [new]
    just inserted into [auth.users]. *)
Definition handle_new_user (new : AuthUser.t) (rid : uuid) (now : timestamptz)
    (d : db) : result db :=
  let meta := AuthUser.raw_user_meta_data new in
  d1 ← insert_profile (AuthUser.id new)
         (Some (coalesce (meta !! "full_name") ""))
         (AuthUser.email new)
         (meta !! "student_id")
         (meta !! "department")
         now d;
  if passes (sql_eq (meta !! "role") (Some "admin"))
  then insert_user_role rid (AuthUser.id new) admin d1
  else insert_user_role rid (AuthUser.id new) student d1.

(** The identity provider inserts the principal into [auth.users]; the
    trigger [on_auth_user_created] (AFTER INSERT, FOR EACH ROW) runs in the
    same statement, so an error in it aborts the insertion too. *)
Definition create_user (new : AuthUser.t) (rid : uuid) (now : timestamptz)
    (d : db) : result db :=
  _ ← guard_or (unique_violation "users_pkey")
        (negb (existsb (fun u => bool_decide (AuthUser.id u = AuthUser.id new))
                       (auth_users d)));
  handle_new_user new rid now (set_auth_users d (auth_users d ++ [new])).

(** [CHECK (status IN ('pending', 'accepted', 'rejected'))]: a CHECK
    rejects a row only when its condition is FALSE, so NULL is let in. *)
Definition status_check (status : option string) : bool :=
  match status with
  | None => true
  | Some st => bool_decide (st ∈ ["pending"; "accepted"; "rejected"])
  end.

(** [INSERT INTO public.applications] of the row [a] (defaults filled in) by
    session [s]: the policy's WITH CHECK, the CHECK constraint, the two
    unique indexes, the two references. *)
Definition insert_application (s : session) (a : Application.t) (d : db)
    : result db :=
  _ ← guard_or (rls_violation "applications")
        (row_allowed INSERT applications_policies s d a);
  _ ← guard_or (check_violation "applications_status_check")
        (status_check (Application.status a));
  _ ← guard_or (unique_violation "applications_pkey")
        (negb (existsb (fun b => bool_decide (Application.id b = Application.id a))
                       (applications d)));
  _ ← guard_or (unique_violation "applications_internship_id_student_id_key")
        (negb (existsb (fun b => bool_decide (Application.key b = Application.key a))
                       (applications d)));
  _ ← guard_or (foreign_key_violation "applications_internship_id_fkey")
        (existsb (fun i => bool_decide (Internship.id i = Application.internship_id a))
                 (internships d));
  _ ← guard_or (foreign_key_violation "applications_student_id_fkey")
        (existsb (fun p => bool_decide (Profile.id p = Application.student_id a))
                 (profiles d));
  Ok (set_applications d (applications d ++ [a])).

(** The trigger function [public.update_application_timestamp()]. *)
Definition update_application_timestamp (now : timestamptz)
    (NEW : Application.t) : Application.t :=
  Application.mk (Application.id NEW) (Application.internship_id NEW)
    (Application.student_id NEW) (Application.status NEW)
    (Application.feedback NEW) (Application.applied_at NEW) now.

(** [SET status = .., feedback = ..] on one row. *)
Definition set_status_feedback (status feedback : option string)
    (a : Application.t) : Application.t :=
  Application.mk (Application.id a) (Application.internship_id a)
    (Application.student_id a) status feedback
    (Application.applied_at a) (Application.updated_at a).

(** The rows an UPDATE with [WHERE id = ..] touches: the UPDATE policies'
    USING, and the SELECT policies' too since the statement reads a
    column.  Rows that fail are skipped without an error. *)
Definition update_targets (s : session) (d : db) (id : uuid)
    (a : Application.t) : bool :=
  bool_decide (Application.id a = id)
  && row_visible UPDATE applications_policies s d a
  && row_visible SELECT applications_policies s d a.

(** One row of the UPDATE: the BEFORE UPDATE trigger sets the timestamp of
    the new row, which must then pass the UPDATE policies' check (their
    USING, none having a WITH CHECK) and, the statement reading the table,
    the SELECT policies' USING; a new row that fails aborts the statement.
    The CHECK constraint comes last. *)
Definition update_row (s : session) (d : db) (id : uuid)
    (status feedback : option string) (now : timestamptz)
    (a : Application.t) : result Application.t :=
  if update_targets s d id a then
    let a' := update_application_timestamp now
                (set_status_feedback status feedback a) in
    _ ← guard_or (rls_violation "applications")
          (row_allowed UPDATE applications_policies s d a'
           && row_visible SELECT applications_policies s d a');
    _ ← guard_or (check_violation "applications_status_check")
          (status_check (Application.status a'));
    Ok a'
  else Ok a.

(** [UPDATE public.applications SET status = .., feedback = ..
    WHERE id = ..] by session [s]. *)
Definition update_application (s : session) (id : uuid)
    (status feedback : option string) (now : timestamptz) (d : db)
    : result db :=
  rows ← mapM (update_row s d id status feedback now) (applications d);
  Ok (set_applications d rows).

(** *** Postings

    No page of the portal writes postings, but the FOR ALL policy opens
    the three writes to whoever holds the admin role. *)

(** [INSERT INTO public.internships] of the row [i]. *)
Definition insert_internship (s : session) (i : Internship.t) (d : db)
    : result db :=
  _ ← guard_or (rls_violation "internships")
        (row_allowed INSERT internships_policies s d i);
  _ ← guard_or (unique_violation "internships_pkey")
        (negb (existsb (fun j => bool_decide (Internship.id j = Internship.id i))
                       (internships d)));
  Ok (set_internships d (internships d ++ [i])).

(** The rows a command with [WHERE id = ..] touches. *)
Definition internship_targets (c : command) (s : session) (d : db) (id : uuid)
    (i : Internship.t) : bool :=
  bool_decide (Internship.id i = id)
  && row_visible c internships_policies s d i
  && row_visible SELECT internships_policies s d i.

(** [SET] of every column but [id] to the values of [new]. *)
Definition set_columns (new old : Internship.t) : Internship.t :=
  Internship.mk (Internship.id old) (Internship.company_name new)
    (Internship.position_title new) (Internship.description new)
    (Internship.salary new) (Internship.duration new)
    (Internship.required_skills new) (Internship.location new)
    (Internship.is_active new) (Internship.created_at new).

Definition update_internship_row (s : session) (d : db) (id : uuid)
    (new : Internship.t) (i : Internship.t) : result Internship.t :=
  if internship_targets UPDATE s d id i then
    let i' := set_columns new i in
    _ ← guard_or (rls_violation "internships")
          (row_allowed UPDATE internships_policies s d i'
           && row_visible SELECT internships_policies s d i');
    Ok i'
  else Ok i.

(** [UPDATE public.internships SET .. WHERE id = ..] *)
Definition update_internship (s : session) (id : uuid) (new : Internship.t)
    (d : db) : result db :=
  rows ← mapM (update_internship_row s d id new) (internships d);
  Ok (set_internships d rows).

(** [DELETE FROM public.internships WHERE id = ..]; the applications that
    reference a deleted posting go with it (ON DELETE CASCADE). *)
Definition delete_internship (s : session) (id : uuid) (d : db) : result db :=
  let deleted := List.filter (internship_targets DELETE s d id) (internships d) in
  Ok (Db (auth_users d) (profiles d) (user_roles d)
        (List.filter (fun i => negb (internship_targets DELETE s d id i))
                     (internships d))
        (List.filter
           (fun a => negb (existsb (fun i => bool_decide
                                      (Internship.id i = Application.internship_id a))
                                   deleted))
           (applications d))).

(** ** Reachable states *)

Inductive step : db -> db -> Prop :=
  | step_create_user d new rid now d' :
      create_user new rid now d = Ok d' -> step d d'
  | step_insert_application d s a d' :
      insert_application s a d = Ok d' -> step d d'
  | step_update_application d s id status feedback now d' :
      update_application s id status feedback now d = Ok d' -> step d d'
  | step_insert_internship d s i d' :
      insert_internship s i d = Ok d' -> step d d'
  | step_update_internship d s id new d' :
      update_internship s id new d = Ok d' -> step d d'
  | step_delete_internship d s id d' :
      delete_internship s id d = Ok d' -> step d d'.

Inductive reachable : db -> Prop :=
  | reachable_fresh sample : reachable (fresh_db sample)
  | reachable_step d d' : reachable d -> step d d' -> reachable d'.

(** ** JavaScript values and operators the handlers use *)

Inductive js_value :=
  | js_undefined
  | js_null
  | js_boolean (b : bool)
  | js_number (n : Z)
  | js_string (s : string)
  | js_object.

Global Instance js_value_eq_dec : EqDecision js_value.
Proof. solve_decision. Defined.

(** [v === 'text'] *)
Definition strict_eq_string (v : js_value) (text : string) : bool :=
  bool_decide (v = js_string text).

(** Truthiness of a string: only the empty string is falsy. *)
Definition js_truthy (s : string) : bool :=
  negb (bool_decide (s = "")).

(** [a || b] on strings. *)
Definition js_or (a b : string) : string :=
  if js_truthy a then a else b.

(** [obj[key] || null] and [obj[key] || ''] on an object used as a map from
    ids to strings: an absent key reads as [undefined], which is falsy. *)
Definition lookup_or_null (obj : gmap string string) (key : string)
    : option string :=
  match obj !! key with
  | Some text => if js_truthy text then Some text else None
  | None => None
  end.

Definition lookup_or_empty (obj : gmap string string) (key : string) : string :=
  match obj !! key with
  | Some text => if js_truthy text then text else ""
  | None => ""
  end.

(** *** Text

    A string holds the UTF-8 bytes of a text.  The value of a form field is
    a sequence of Unicode scalar values, so it has exactly one such
    encoding; what JavaScript measures in UTF-16 code units, or strips as
    white space, is computed on that encoding. *)

Definition is_continuation (c : ascii) : bool :=
  let n := nat_of_ascii c in
  Nat.leb 128 n && Nat.ltb n 192.

(** The continuation bytes a leading byte announces. *)
Definition continuation_bytes (c : ascii) : nat :=
  let n := nat_of_ascii c in
  if Nat.ltb n 192 then 0
  else if Nat.ltb n 224 then 1
  else if Nat.ltb n 240 then 2
  else if Nat.ltb n 248 then 3
  else 0.

(** The UTF-16 code units of the character a byte starts: two (a
    surrogate pair) for the four-byte characters beyond the basic plane,
    one otherwise. *)
Definition code_units (c : ascii) : nat :=
  let n := nat_of_ascii c in
  if Nat.leb 240 n && Nat.ltb n 248 then 2 else 1.

(** [expect] continuation bytes are still due for the character being
    read; a byte that continues nothing starts a unit of its own. *)
Fixpoint js_length_from (expect : nat) (s : string) : nat :=
  match s with
  | EmptyString => 0
  | String c rest =>
      match expect with
      | S e =>
          if is_continuation c then js_length_from e rest
          else code_units c + js_length_from (continuation_bytes c) rest
      | 0 => code_units c + js_length_from (continuation_bytes c) rest
      end
  end.

(** [s.length] *)
Definition js_length (s : string) : nat := js_length_from 0 s.

(** The characters [String.prototype.trim] strips, WhiteSpace and
    LineTerminator of ECMAScript, by their UTF-8 bytes: U+0009 to U+000D,
    U+0020, U+00A0, U+1680, U+2000 to U+200A, U+2028, U+2029, U+202F,
    U+205F, U+3000 and U+FEFF. *)
Definition white_space : list (list ascii) :=
  List.map (List.map ascii_of_nat)
    [ [9]; [10]; [11]; [12]; [13]; [32];
      [194; 160];
      [225; 154; 128];
      [226; 128; 128]; [226; 128; 129]; [226; 128; 130]; [226; 128; 131];
      [226; 128; 132]; [226; 128; 133]; [226; 128; 134]; [226; 128; 135];
      [226; 128; 136]; [226; 128; 137]; [226; 128; 138];
      [226; 128; 168]; [226; 128; 169];
      [226; 128; 175];
      [226; 129; 159];
      [227; 128; 128];
      [239; 187; 191] ].

(** The bytes after [p] when the bytes [l] start with [p]. *)
Fixpoint strip_prefix (p l : list ascii) : option (list ascii) :=
  match p, l with
  | [], _ => Some l
  | a :: p', b :: l' => if Ascii.eqb a b then strip_prefix p' l' else None
  | _ :: _, [] => None
  end.

(** The bytes after one of the [chars] at the start of [l], if one is
    there. *)
Fixpoint strip_one (chars : list (list ascii)) (l : list ascii)
    : option (list ascii) :=
  match chars with
  | [] => None
  | p :: more =>
      match strip_prefix p l with
      | Some rest => Some rest
      | None => strip_one more l
      end
  end.

Fixpoint strip_all (fuel : nat) (chars : list (list ascii)) (l : list ascii)
    : list ascii :=
  match fuel with
  | 0 => l
  | S n =>
      match strip_one chars l with
      | Some rest => strip_all n chars rest
      | None => l
      end
  end.

Definition trim_start (l : list ascii) : list ascii :=
  strip_all (length l) white_space l.

(** The end is the start of the reversed bytes, the characters reversed
    too. *)
Definition trim_end (l : list ascii) : list ascii :=
  List.rev (strip_all (length l) (List.map (@List.rev ascii) white_space)
              (List.rev l)).

(** [String.prototype.trim] *)
Definition trim (s : string) : string :=
  string_of_list_ascii (trim_end (trim_start (list_ascii_of_string s))).

(** U+00A0, the no-break space, and a password of five letters that take
    two bytes each. *)
Definition nbsp : string :=
  String (ascii_of_nat 194) (String (ascii_of_nat 160) EmptyString).
Definition five_accented : string := "ééééé".

Inductive toast :=
  | toast_success (text : string)
  | toast_error (text : string).

Global Instance toast_eq_dec : EqDecision toast.
Proof. solve_decision. Defined.

(** ** The notification edge function *)

Module EmailRequest.
(** [interface EmailRequest]; the declared type of [status] is not checked
    at run time, so the field is whatever the JSON body carries. *)
Record t := mk {
  to : string;
  status : js_value;
  feedback : string }.
End EmailRequest.

Definition dq : string := String (ascii_of_nat 34) EmptyString.

Definition accepted_subject : string :=
  "🎉 Your Internship Application Has Been Accepted!".
Definition rejected_subject : string :=
  "Update on Your Internship Application".

Definition accepted_html (feedback : string) : string :=
  "<div style=" +:+ dq +:+ "font-family: Arial, sans-serif; max-width: 600px; margin: 0 auto;" +:+ dq +:+ ">
          <h1 style=" +:+ dq +:+ "color: #059669;" +:+ dq +:+ ">Congratulations!</h1>
          <p>We are pleased to inform you that your internship application has been <strong>accepted</strong>.</p>
          "
  +:+ (if js_truthy feedback
       then "<div style=" +:+ dq +:+ "background-color: #f0f9ff; padding: 15px; border-left: 4px solid #059669; margin: 20px 0;" +:+ dq +:+ ">
            <p style=" +:+ dq +:+ "margin: 0;" +:+ dq +:+ "><strong>Message from Admin:</strong></p>
            <p style=" +:+ dq +:+ "margin: 10px 0 0 0;" +:+ dq +:+ ">"
            +:+ feedback +:+
            "</p>
          </div>"
       else "")
  +:+ "
          <p>Please check your student portal for next steps.</p>
          <p style=" +:+ dq +:+ "margin-top: 30px;" +:+ dq +:+ ">Best regards,<br><strong>KLU Internship Management Team</strong></p>
        </div>".

Definition rejected_html (feedback : string) : string :=
  "<div style=" +:+ dq +:+ "font-family: Arial, sans-serif; max-width: 600px; margin: 0 auto;" +:+ dq +:+ ">
          <h1 style=" +:+ dq +:+ "color: #dc2626;" +:+ dq +:+ ">Application Update</h1>
          <p>Thank you for your interest in our internship program.</p>
          <p>After careful consideration, we regret to inform you that your application was not selected at this time.</p>
          "
  +:+ (if js_truthy feedback
       then "<div style=" +:+ dq +:+ "background-color: #fef2f2; padding: 15px; border-left: 4px solid: #dc2626; margin: 20px 0;" +:+ dq +:+ ">
            <p style=" +:+ dq +:+ "margin: 0;" +:+ dq +:+ "><strong>Feedback:</strong></p>
            <p style=" +:+ dq +:+ "margin: 10px 0 0 0;" +:+ dq +:+ ">"
            +:+ feedback +:+
            "</p>
          </div>"
       else "")
  +:+ "
          <p>We encourage you to continue developing your skills and apply for future opportunities.</p>
          <p style=" +:+ dq +:+ "margin-top: 30px;" +:+ dq +:+ ">Best regards,<br><strong>KLU Internship Management Team</strong></p>
        </div>".

Module Resend.
(** The JSON posted to the mail service. *)
Record email := mk {
  from : string;
  to : list string;
  subject : string;
  html : string }.

(** What [fetch] and [emailResponse.json()] give back: an exception, or a
    response with its [ok] flag, the text of its JSON and the [message]
    field of that JSON (empty when it has none). *)
Inductive outcome :=
  | throws (error_message : string)
  | responds (ok : bool) (data : string) (data_message : string).
End Resend.

Module Http.
Record request := mk_request {
  method : string;
  (** [await req.json()]: the parsed body, or the message of the exception
      the parse throws *)
  json : string + EmailRequest.t }.

(** The response's status and the JSON text of its body ([None] for the
    bodiless reply to a preflight). *)
Inductive body := no_body | json_data (data : string) | json_error (error : string).
Record response := mk_response {
  status : nat;
  content : body }.
End Http.

Definition compose_subject (status : js_value) : string :=
  if strict_eq_string status "accepted"
  then accepted_subject
  else rejected_subject.

Definition compose_message (status : js_value) (feedback : string) : string :=
  if strict_eq_string status "accepted"
  then accepted_html feedback
  else rejected_html feedback.

Section EdgeFunction.
Variable resend : Resend.email -> Resend.outcome.

Definition handler (req : Http.request) : Http.response :=
  if bool_decide (Http.method req = "OPTIONS") then
    Http.mk_response 200 Http.no_body
  else
    match Http.json req with
    | inl error_message => Http.mk_response 500 (Http.json_error error_message)
    | inr body =>
        let subject := compose_subject (EmailRequest.status body) in
        let message := compose_message (EmailRequest.status body)
                         (EmailRequest.feedback body) in
        match resend (Resend.mk "KLU Internship Portal <onboarding@resend.dev>"
                        [EmailRequest.to body] subject message) with
        | Resend.throws error_message =>
            Http.mk_response 500 (Http.json_error error_message)
        | Resend.responds false _ data_message =>
            Http.mk_response 500
              (Http.json_error (js_or data_message "Failed to send email"))
        | Resend.responds true data _ =>
            Http.mk_response 200 (Http.json_data data)
        end
    end.
End EdgeFunction.

(** ** Form validation (the zod schemas) *)

Inductive string_check :=
  | z_trim
  | z_email (message : string)
  | z_min (n : nat) (message : string).

Inductive field_schema :=
  | z_string (checks : list string_check)
  | z_optional (checks : list string_check).

Section Validation.
(** The pattern zod's [email()] tests a string against. *)
Variable is_email : string -> bool.

(** The checks of a string schema run in order, each on the value the
    previous ones left; a failed check adds its issue and the next ones
    still run. *)
Fixpoint run_checks (checks : list string_check) (data : string) : list string :=
  match checks with
  | [] => []
  | z_trim :: rest => run_checks rest (trim data)
  | z_email message :: rest =>
      (if is_email data then [] else [message]) ++ run_checks rest data
  | z_min n message :: rest =>
      (if Nat.ltb (js_length data) n then [message] else [])
      ++ run_checks rest data
  end.

Definition parse_field (schema : field_schema) (value : option string)
    : list string :=
  match schema, value with
  | z_string checks, Some data => run_checks checks data
  | z_string _, None => ["Required"]
  | z_optional checks, Some data => run_checks checks data
  | z_optional _, None => []
  end.

(** [schema.parse(data)]: the issues of all keys, in the order the schema
    lists its keys; the parse throws a [ZodError] holding them when there
    is one. *)
Definition parse_object (shape : list (string * field_schema))
    (data : string -> option string) : list string :=
  flat_map (fun kv => parse_field (snd kv) (data (fst kv))) shape.

Definition signupSchema : list (string * field_schema) :=
  [ ("email", z_string [z_trim; z_email "Invalid email address"]);
    ("password", z_string [z_min 6 "Password must be at least 6 characters"]);
    ("fullName", z_string [z_trim; z_min 1 "Full name is required"]);
    ("studentId", z_optional [z_trim]);
    ("department", z_optional [z_trim]) ].

Definition signinSchema : list (string * field_schema) :=
  [ ("email", z_string [z_trim; z_email "Invalid email address"]);
    ("password", z_string [z_min 1 "Password is required"]) ].
End Validation.

(** ** The sign-in / sign-up page *)

Module Auth.
(** The fields of the two forms; the student-only inputs are read only
    when the page is in student mode. *)
Record signup_form := mk_signup_form {
  su_email : string;
  su_password : string;
  su_fullName : string;
  su_studentId : string;
  su_department : string }.

Record signin_form := mk_signin_form {
  si_email : string;
  si_password : string }.

(** Calls that leave the browser. *)
Inductive call :=
  | auth_signUp (email password : string) (data : gmap string string)
  | auth_signInWithPassword (email password : string)
  | auth_getUser
  | select_role (user_id : uuid).

(** What the page did during one submit. *)
Record effects := mk_effects {
  calls : list call;
  toasts : list toast;
  navigated : option string }.
End Auth.

Definition role_name (r : app_role) : string :=
  match r with student => "student" | admin => "admin" end.

Definition dashboard_of (is_admin : bool) : string :=
  if is_admin then "/admin" else "/student".

(** The [data] object of [handleSignUp], as a map from keys to values
    ([undefined] is an absent key). *)
Definition signup_data (userType : app_role) (form : Auth.signup_form)
    (key : string) : option string :=
  match key with
  | "email" => Some (Auth.su_email form)
  | "password" => Some (Auth.su_password form)
  | "fullName" => Some (Auth.su_fullName form)
  | "studentId" =>
      if bool_decide (userType = student) then Some (Auth.su_studentId form)
      else None
  | "department" =>
      if bool_decide (userType = student) then Some (Auth.su_department form)
      else None
  | _ => None
  end.

Definition signin_data (form : Auth.signin_form) (key : string) : option string :=
  match key with
  | "email" => Some (Auth.si_email form)
  | "password" => Some (Auth.si_password form)
  | _ => None
  end.

(** The metadata object sent with the sign-up; a key whose value is
    [undefined] is left out of the JSON. *)
Definition signup_metadata (userType : app_role) (form : Auth.signup_form)
    : gmap string string :=
  let data := signup_data userType form in
  let put key (value : option string) (m : gmap string string) :=
    match value with Some v => <[key := v]> m | None => m end in
  put "full_name" (data "fullName")
    (put "student_id" (data "studentId")
       (put "department" (data "department")
          (<["role" := role_name userType]> ∅))).

Section AuthPage.
Variable is_email : string -> bool.
(** The identity provider's answers: the error of a sign-up or sign-in (if
    any), and the signed-in user. *)
Variable signUp_error : string -> string -> gmap string string -> option string.
Variable signIn_error : string -> string -> option string.
Variable getUser : option uuid.

Definition handleSignUp (userType : app_role) (form : Auth.signup_form)
    : Auth.effects :=
  let data := signup_data userType form in
  match parse_object is_email signupSchema data with
  | first :: _ => Auth.mk_effects [] [toast_error first] None
  | [] =>
      let call := Auth.auth_signUp (Auth.su_email form) (Auth.su_password form)
                    (signup_metadata userType form) in
      match signUp_error (Auth.su_email form) (Auth.su_password form)
              (signup_metadata userType form) with
      | Some message =>
          Auth.mk_effects [call]
            [toast_error (js_or message "Error creating account")] None
      | None =>
          Auth.mk_effects [call]
            [toast_success "Account created successfully!"]
            (Some (dashboard_of (bool_decide (userType = admin))))
      end
  end.

(** [.from(user_roles).select(role).eq(user_id, ..).single()] as the
    signed-in user: the row when exactly one comes back. *)
Definition single_role (d : db) (user_id : uuid) : option app_role :=
  match List.filter (fun r => bool_decide (UserRole.user_id r = user_id))
          (select_user_roles (Session (Some user_id) "authenticated") d) with
  | [r] => Some (UserRole.role r)
  | _ => None
  end.

Definition handleSignIn (d : db) (form : Auth.signin_form) : Auth.effects :=
  match parse_object is_email signinSchema (signin_data form) with
  | first :: _ => Auth.mk_effects [] [toast_error first] None
  | [] =>
      let call := Auth.auth_signInWithPassword (Auth.si_email form)
                    (Auth.si_password form) in
      match signIn_error (Auth.si_email form) (Auth.si_password form) with
      | Some message =>
          Auth.mk_effects [call]
            [toast_error (js_or message "Error signing in")] None
      | None =>
          match getUser with
          | None => Auth.mk_effects [call; Auth.auth_getUser] [] None
          | Some user_id =>
              Auth.mk_effects
                [call; Auth.auth_getUser; Auth.select_role user_id]
                [toast_success "Signed in successfully!"]
                (Some (dashboard_of
                         (bool_decide (single_role d user_id = Some admin))))
          end
      end
  end.
End AuthPage.

(** ** The student dashboard *)

Module StudentDashboard.
(** The datastore behind the page and the page's own state. *)
Record t := mk {
  store : db;
  toasts : list toast;
  applying : option string }.
End StudentDashboard.

(** The session of a signed-in user. *)
Definition session_of (user_id : uuid) : session :=
  Session (Some user_id) "authenticated".

Section Dashboards.
(** [error.message] of an error the datastore answers with. *)
Variable message : db_error -> string.

(** [handleApply]: [new_id] and [now] are what the datastore draws for the
    [id] and timestamp defaults of the inserted row. *)
Definition handleApply (user : option uuid) (internshipId : string)
    (new_id : uuid) (now : timestamptz) (page : StudentDashboard.t)
    : StudentDashboard.t :=
  match user with
  | None => page
  | Some user_id =>
      let row := Application.mk new_id internshipId user_id (Some "pending")
                   None now now in
      match insert_application (session_of user_id) row
              (StudentDashboard.store page) with
      | Err error =>
          StudentDashboard.mk (StudentDashboard.store page)
            (StudentDashboard.toasts page
               ++ [toast_error (js_or (message error)
                                  "Error submitting application")])
            None
      | Ok d' =>
          StudentDashboard.mk d'
            (StudentDashboard.toasts page
               ++ [toast_success "Application submitted successfully!"])
            None
      end
  end.
End Dashboards.

(** ** The admin dashboard *)

Module AdminDashboard.
(** The datastore behind the page, the invocations of the notification
    function made so far, and the page's own state. *)
Record t := mk {
  store : db;
  invocations : list EmailRequest.t;
  toasts : list toast;
  feedback : gmap string string;
  processingId : option string }.
End AdminDashboard.

(** The accept / reject controls of an application card are rendered under
    [application.status === 'pending' && (...)]. *)
Definition status_controls_rendered (application : Application.t) : bool :=
  bool_decide (Application.status application = Some "pending").

Section AdminPage.
Variable message : db_error -> string.
(** [supabase.functions.invoke('send-application-email', ..)]: the error
    it returns, if any. *)
Variable invoke : EmailRequest.t -> option string.

Definition handleStatusUpdate (s : session) (now : timestamptz)
    (applicationId : string) (newStatus : string) (studentEmail : string)
    (page : AdminDashboard.t) : AdminDashboard.t :=
  let feedback := AdminDashboard.feedback page in
  match update_application s applicationId (Some newStatus)
          (lookup_or_null feedback applicationId) now
          (AdminDashboard.store page) with
  | Err updateError =>
      AdminDashboard.mk (AdminDashboard.store page)
        (AdminDashboard.invocations page)
        (AdminDashboard.toasts page
           ++ [toast_error (js_or (message updateError)
                              "Error updating application")])
        feedback
        None
  | Ok d' =>
      let body := EmailRequest.mk studentEmail (js_string newStatus)
                    (lookup_or_empty feedback applicationId) in
      AdminDashboard.mk d'
        (AdminDashboard.invocations page ++ [body])
        (AdminDashboard.toasts page
           ++ [match invoke body with
               | Some _ =>
                   toast_error "Status updated but email notification failed"
               | None =>
                   toast_success ("Application " +:+ newStatus
                                  +:+ " and email sent!")
               end])
        (<[applicationId := ""]> feedback)
        None
  end.
End AdminPage.

(** The notification function behind [invoke]: the call errs when the
    function answers with a status outside 200..299. *)
Definition invoke_via (resend : Resend.email -> Resend.outcome)
    (body : EmailRequest.t) : option string :=
  let response := handler resend (Http.mk_request "POST" (inr body)) in
  if Nat.leb 200 (Http.status response) && Nat.ltb (Http.status response) 300
  then None
  else Some "Edge Function returned a non-2xx status code".

(** ** A run of the portal

    A student and an admin sign up, the admin takes the second posting of
    the migration off the list, the student applies to the first one, the
    admin accepts the application. *)

Module Demo.
Definition techcorp : Internship.t :=
  Internship.mk "i-1" "TechCorp Solutions" "Frontend Developer Intern"
    "Work on cutting-edge web applications using React and TypeScript. Collaborate with experienced developers on real-world projects."
    "$800-1200/month" "3-6 months"
    ["JavaScript"; "React"; "TypeScript"; "HTML/CSS"] "Remote" (Some true) 0.

Definition datastream (active : bool) : Internship.t :=
  Internship.mk "i-2" "DataStream Analytics" "Data Science Intern"
    "Analyze large datasets and build machine learning models. Gain hands-on experience with Python and data visualization tools."
    "$1000-1500/month" "4-6 months"
    ["Python"; "SQL"; "Machine Learning"; "Pandas"] "Remote" (Some active) 0.

Definition student_form : Auth.signup_form :=
  Auth.mk_signup_form "student@klu.edu" "klu@123" "Asha Rao" "2400030001"
    "Computer Science".

Definition admin_form : Auth.signup_form :=
  Auth.mk_signup_form "admin@klu.edu" "klu@123" "Head of Placements" "" "".

Definition student_user : AuthUser.t :=
  AuthUser.mk "u-1" (Some "student@klu.edu") (signup_metadata student student_form).

Definition admin_user : AuthUser.t :=
  AuthUser.mk "u-2" (Some "admin@klu.edu") (signup_metadata admin admin_form).

Definition the_student : session := session_of "u-1".
Definition the_admin : session := session_of "u-2".
(** A principal of the identity provider with no row in any table. *)
Definition stranger : session := session_of "u-9".

Definition migrated : db := fresh_db [techcorp; datastream true].
Definition enrolled : db :=
  commit migrated (create_user student_user "r-1" 1 migrated).
Definition staffed : db :=
  commit enrolled (create_user admin_user "r-2" 2 enrolled).
Definition delisted : db :=
  commit staffed (update_internship the_admin "i-2" (datastream false) staffed).

Definition first_application : Application.t :=
  Application.mk "a-1" "i-1" "u-1" (Some "pending") None 3 3.

Definition applied : db :=
  commit delisted (insert_application the_student first_application delisted).
Definition accepted : db :=
  commit applied (update_application the_admin "a-1" (Some "accepted")
                    (Some "Great fit") 4 applied).
End Demo.

(** ** Auxiliary notions the properties are stated with *)

(** The postings on the list: [is_active = true]. *)
Definition is_listed (i : Internship.t) : bool :=
  bool_decide (Internship.is_active i = Some true).

(** The row an accepted UPDATE leaves in place of [a]. *)
Definition updated_row (id : uuid) (status feedback : option string)
    (now : timestamptz) (a : Application.t) : Application.t :=
  if bool_decide (Application.id a = id)
  then update_application_timestamp now (set_status_feedback status feedback a)
  else a.


(** Counting the rows of a principal. *)

Definition count_users (d : db) (u : uuid) : nat :=
  length (List.filter (fun x => bool_decide (AuthUser.id x = u)) (auth_users d)).
Definition count_profiles (d : db) (u : uuid) : nat :=
  length (List.filter (fun p => bool_decide (Profile.id p = u)) (profiles d)).
Definition count_roles (d : db) (u : uuid) : nat :=
  length (List.filter (fun r => bool_decide (UserRole.user_id r = u)) (user_roles d)).

(** Every principal has its profile and its role assignment, one of each,
    and nobody else has any. *)
Definition paired (d : db) : Prop :=
  forall u, count_profiles d u = count_users d u
            /\ count_roles d u = count_users d u
            /\ count_users d u <= 1.

(** The role the trigger assigns for a sign-up's metadata. *)
Definition requested_admin (new : AuthUser.t) : Prop :=
  AuthUser.raw_user_meta_data new !! "role" = Some "admin".

(** The role the trigger's IF assigns. *)
Definition assigned_role (new : AuthUser.t) : app_role :=
  if passes (sql_eq (AuthUser.raw_user_meta_data new !! "role") (Some "admin"))
  then admin else student.

(** [error.message] texts in the style of the datastore's. *)
Definition demo_message (e : db_error) : string :=
  match e with
  | unique_violation c => "duplicate key value violates unique constraint " +:+ c
  | check_violation c => "new row violates check constraint " +:+ c
  | not_null_violation c => "null value violates not-null constraint in column " +:+ c
  | foreign_key_violation c => "insert or update violates foreign key constraint " +:+ c
  | rls_violation t => "new row violates row-level security policy for table " +:+ t
  end.

(** A stand-in for the address pattern: the text holds an at sign. *)
Definition demo_is_email (s : string) : bool :=
  existsb (fun c => Nat.eqb (nat_of_ascii c) 64) (list_ascii_of_string s).

(** ** The rest of the pages *)

(** [SELECT * FROM public.profiles] as the session sees it. *)
Definition select_profiles (s : session) (d : db) : list Profile.t :=
  List.filter (row_visible SELECT profiles_policies s d) (profiles d).

(** [.order(column, { ascending: false })]: rows by descending key; rows
    with equal keys, whose order the datastore leaves open, stay in table
    order. *)
Fixpoint insert_desc {A} (key : A -> nat) (x : A) (l : list A) : list A :=
  match l with
  | [] => [x]
  | y :: l' =>
      if Nat.ltb (key x) (key y) then y :: insert_desc key x l' else x :: l
  end.

Definition order_desc {A} (key : A -> nat) (l : list A) : list A :=
  fold_right (insert_desc key) [] l.

(** [fetchData] of the student dashboard: the postings query and the
    applications query (the columns of the rows themselves; the embedded
    posting of an application is left out). *)
Definition fetch_internships (s : session) (d : db) : list Internship.t :=
  order_desc Internship.created_at
    (List.filter (fun i => passes (sql_eq (Internship.is_active i) (Some true)))
                 (select_internships s d)).

Definition fetch_own_applications (user_id : uuid) (d : db)
    : list Application.t :=
  order_desc Application.applied_at
    (List.filter (fun a => bool_decide (Application.student_id a = user_id))
                 (select_applications (session_of user_id) d)).

(** [hasApplied], over the applications the page holds. *)
Definition hasApplied (applications : list Application.t)
    (internshipId : string) : bool :=
  existsb (fun app => bool_decide (Application.internship_id app = internshipId))
          applications.

(** [getStatusBadge] of both dashboards. *)
Inductive badge := badge_accepted | badge_rejected | badge_pending.

Definition getStatusBadge (status : option string) : badge :=
  match status with
  | Some "accepted" => badge_accepted
  | Some "rejected" => badge_rejected
  | _ => badge_pending
  end.

Module Stats.
Record t := mk {
  total : nat;
  pending : nat;
  accepted : nat;
  rejected : nat }.
End Stats.

(** [data.filter(a => a.status === text).length] *)
Definition count_status (text : string) (data : list Application.t) : nat :=
  length (List.filter (fun a => bool_decide (Application.status a = Some text))
                      data).

(** [fetchApplications] of the admin dashboard: the rows it gets (again
    without the embedded profile and posting) and the counters it derives
    from them. *)
Definition fetchApplications (s : session) (d : db) : list Application.t :=
  order_desc Application.applied_at (select_applications s d).

Definition calculate_stats (data : list Application.t) : Stats.t :=
  Stats.mk (length data) (count_status "pending" data)
    (count_status "accepted" data) (count_status "rejected" data).

Module ProtectedRoute.
(** What the component returns. *)
Inductive rendered := spinner | nothing | children.

(** [requiredRole && userRole !== requiredRole] *)
Definition wrong_role (userRole requiredRole : option app_role) : bool :=
  match requiredRole with
  | Some required => negb (bool_decide (userRole = Some required))
  | None => false
  end.

(** The effect: where it navigates, if anywhere.  [user], [loading] and
    [userRole] are what the [useAuth] hook hands over. *)
Definition effect (user : option uuid) (loading : bool)
    (userRole requiredRole : option app_role) : option string :=
  if loading then None
  else match user with
       | None => Some "/auth"
       | Some _ =>
           if wrong_role userRole requiredRole
           then Some (dashboard_of (bool_decide (userRole = Some admin)))
           else None
       end.

Definition render (user : option uuid) (loading : bool)
    (userRole requiredRole : option app_role) : rendered :=
  if loading then spinner
  else match user with
       | None => nothing
       | Some _ => if wrong_role userRole requiredRole then nothing else children
       end.
End ProtectedRoute.

(** ** Invariants the properties are stated with *)

(** Every application refers to a posting and to a profile that exist. *)
Definition references_hold (d : db) : Prop :=
  forall a, a ∈ applications d ->
    (exists i, i ∈ internships d /\ Internship.id i = Application.internship_id a)
    /\ (exists p, p ∈ profiles d /\ Profile.id p = Application.student_id a).

(** Ids of applications, ids of profiles and student ids do not repeat, and
    every status is one the CHECK lets in. *)
Definition keys_hold (d : db) : Prop :=
  NoDup (List.map Application.id (applications d))
  /\ NoDup (List.map Profile.id (profiles d))
  /\ NoDup (omap Profile.student_id (profiles d))
  /\ (forall a, a ∈ applications d -> status_check (Application.status a) = true).

(** Two more sign-ups after the run: students who leave the student id
    blank. *)
Module Walkin.
Definition ravi : AuthUser.t :=
  AuthUser.mk "u-3" (Some "ravi@klu.edu")
    (signup_metadata student
       (Auth.mk_signup_form "ravi@klu.edu" "secret1" "Ravi Teja" "" "")).
Definition meena : AuthUser.t :=
  AuthUser.mk "u-4" (Some "meena@klu.edu")
    (signup_metadata student
       (Auth.mk_signup_form "meena@klu.edu" "secret2" "Meena K" "" "Physics")).
Definition after_ravi : db :=
  commit Demo.accepted (create_user ravi "r-3" 6 Demo.accepted).
End Walkin.

(** * Properties *)

(** ** Policy evaluation *)

Lemma passes_Some (b : bool) : passes (Some b) = b.
Proof. by destruct b. Qed.

Lemma passes_sql_eq {A} `{EqDecision A} (x y : option A) :
  passes (sql_eq x y) = true <-> exists a, x = Some a /\ y = Some a.
Proof.
  destruct x as [a|], y as [b|]; simpl.
  - case_bool_decide as Hab.
    + subst. split; [intros _; by exists b | done].
    + split; [done | intros (c & [= ->] & [= ->]); done].
  - split; [done | intros (c & _ & ?); done].
  - split; [done | intros (c & ? & _); done].
  - split; [done | intros (c & ? & _); done].
Qed.

Lemma passes_sql_and (x y : option bool) :
  passes (sql_and x y) = passes x && passes y.
Proof. by destruct x as [[]|], y as [[]|]. Qed.

(** What [has_role] computes, row by row. *)
Lemma has_role_body_true rows uid r :
  has_role_body rows uid r = true <->
  exists row, row ∈ rows /\ uid = Some (UserRole.user_id row)
              /\ r = Some (UserRole.role row).
Proof.
  unfold has_role_body. rewrite existsb_exists. split.
  - intros (row & Hin & Hq). exists row.
    rewrite passes_sql_and in Hq. apply andb_true_iff in Hq as [H1 H2].
    apply passes_sql_eq in H1 as (a & [= <-] & ->).
    apply passes_sql_eq in H2 as (b & [= <-] & ->).
    by rewrite list_elem_of_In.
  - intros (row & Hin & -> & ->). exists row. split; [by apply list_elem_of_In|].
    rewrite passes_sql_and. apply andb_true_iff.
    split; apply passes_sql_eq; eauto.
Qed.

Lemma internship_visible s d i :
  row_visible SELECT internships_policies s d i
  = (bool_decide (auth_role s = "authenticated")
     && bool_decide (Internship.is_active i = Some true))
    || has_role s d (auth_uid s) (Some admin).
Proof.
  unfold row_visible.
  change (using_quals SELECT internships_policies)
    with [authenticated_and_active; @caller_is_admin Internship.t].
  cbn [existsb]. unfold authenticated_and_active, caller_is_admin.
  rewrite orb_false_r, passes_Some. f_equal.
  destruct (Internship.is_active i) as [[]|]; cbn;
    repeat case_bool_decide; cbn; congruence.
Qed.

Lemma can_read_internship_iff s d i :
  can_read_internship s d i <->
  i ∈ internships d /\
  ((auth_role s = "authenticated" /\ Internship.is_active i = Some true)
   \/ has_role s d (auth_uid s) (Some admin) = true).
Proof.
  unfold can_read_internship, select_internships.
  rewrite list_elem_of_In, filter_In, <- list_elem_of_In, internship_visible.
  rewrite orb_true_iff, andb_true_iff, !bool_decide_eq_true. tauto.
Qed.

(** ** C5 *)

(** C5: a posting that is not active is read by a principal exactly when
    the principal holds the admin role (so a non-admin cannot read it and an
    admin can), and an active posting is read by every authenticated
    principal. *)
Theorem inactive_postings_are_for_admins (s : session) (d : db)
    (i : Internship.t) :
  i ∈ internships d ->
  (Internship.is_active i = Some false ->
   (has_role s d (auth_uid s) (Some admin) = false -> ¬ can_read_internship s d i)
   /\ (has_role s d (auth_uid s) (Some admin) = true -> can_read_internship s d i))
  /\ (Internship.is_active i = Some true -> auth_role s = "authenticated" ->
      can_read_internship s d i).
Proof.
  intros Hin. split.
  - intros Hinactive. split; intros Hrole.
    + rewrite can_read_internship_iff. intros (_ & [[_ Hact] | Hadm]); congruence.
    + apply can_read_internship_iff. auto.
  - intros Hactive Hauth. apply can_read_internship_iff. auto.
Qed.

Lemma inactive_postings_are_for_admins_witness :
  ¬ can_read_internship Demo.the_student Demo.accepted (Demo.datastream false)
  /\ can_read_internship Demo.the_admin Demo.accepted (Demo.datastream false)
  /\ can_read_internship Demo.stranger Demo.accepted Demo.techcorp.
Proof.
  assert ((Demo.datastream false) ∈ internships Demo.accepted) as Hclosed
    by (vm_compute; right; left).
  assert (Demo.techcorp ∈ internships Demo.accepted) as Hopen
    by (vm_compute; left).
  destruct (inactive_postings_are_for_admins Demo.the_student Demo.accepted
              (Demo.datastream false) Hclosed) as (Hstudent & _).
  destruct (inactive_postings_are_for_admins Demo.the_admin Demo.accepted
              (Demo.datastream false) Hclosed) as (Hadmin & _).
  destruct (inactive_postings_are_for_admins Demo.stranger Demo.accepted
              Demo.techcorp Hopen) as (_ & Hactive).
  split; [apply (Hstudent eq_refl); vm_compute; reflexivity|].
  split; [apply (Hadmin eq_refl); vm_compute; reflexivity|].
  apply Hactive; reflexivity.
Defined.

(** ** C2 *)

Lemma has_role_unassigned s d uid r :
  (forall row, row ∈ user_roles d -> uid ≠ Some (UserRole.user_id row)) ->
  has_role s d uid r = false.
Proof.
  intros Hnone. apply not_true_is_false. intros Hrole.
  apply has_role_body_true in Hrole as (row & Hin & Huid & _).
  exact (Hnone row Hin Huid).
Qed.

(** C2, as the code has it: an authenticated principal with no row in the
    role-assignment table reads the postings list without an error and gets
    exactly the active postings; the read is empty only when no posting is
    active. *)
Theorem unassigned_principal_reads_active_postings (s : session) (d : db) :
  auth_role s = "authenticated" ->
  (forall row, row ∈ user_roles d -> auth_uid s ≠ Some (UserRole.user_id row)) ->
  select_internships s d = List.filter is_listed (internships d).
Proof.
  intros Hauth Hnone. unfold select_internships.
  apply List.filter_ext. intros i.
  rewrite internship_visible, (has_role_unassigned _ _ _ _ Hnone), orb_false_r.
  unfold is_listed. by rewrite bool_decide_true.
Qed.

Lemma unassigned_principal_reads_active_postings_witness :
  select_internships Demo.stranger Demo.accepted
  = List.filter is_listed (internships Demo.accepted).
Proof.
  apply (unassigned_principal_reads_active_postings Demo.stranger Demo.accepted).
  - reflexivity.
  - intros row Hin. vm_compute in Hin.
    apply elem_of_cons in Hin as [-> | Hin]; [discriminate|].
    apply elem_of_cons in Hin as [-> | Hin]; [discriminate|].
    by apply elem_of_nil in Hin.
Defined.

(** C2 as stated fails: a principal without any role row reads a posting. *)
Lemma unassigned_principal_is_not_denied :
  exists (s : session) (d : db),
    auth_role s = "authenticated"
    /\ (forall row, row ∈ user_roles d -> auth_uid s ≠ Some (UserRole.user_id row))
    /\ select_internships s d = [Demo.techcorp].
Proof.
  exists Demo.stranger, Demo.accepted. split; [reflexivity|].
  split; [|vm_compute; reflexivity].
  intros row Hin. vm_compute in Hin.
  apply elem_of_cons in Hin as [-> | Hin]; [discriminate|].
  apply elem_of_cons in Hin as [-> | Hin]; [discriminate|].
  by apply elem_of_nil in Hin.
Qed.

(** ** C7 *)

(** C7: evaluating [has_role] returns its answer and leaves the state as it
    was; the answer is the same in whichever session it is asked, because
    the function reads the whole role-assignment table; it is [true]
    exactly when the table holds the pair, hence [false], not an error, for
    a NULL user (nobody signed in) and for a user without a row. *)
Theorem has_role_pure_definer_total (s s' : session) (d : db)
    (uid : option uuid) (r : app_role) :
  run_query (fun d0 => has_role s d0 uid (Some r)) d
    = Ok (has_role s d uid (Some r), d)
  /\ has_role s d uid (Some r) = has_role s' d uid (Some r)
  /\ (has_role s d uid (Some r) = true <->
      exists row, row ∈ user_roles d /\ uid = Some (UserRole.user_id row)
                  /\ UserRole.role row = r)
  /\ has_role s d None (Some r) = false
  /\ ((forall row, row ∈ user_roles d -> uid ≠ Some (UserRole.user_id row)) ->
      has_role s d uid (Some r) = false).
Proof.
  split; [reflexivity|]. split; [reflexivity|]. split; [|split].
  - unfold has_role, has_role_with, user_roles_read_as.
    rewrite has_role_body_true. split.
    + intros (row & Hin & Hu & [= ->]). eauto.
    + intros (row & Hin & Hu & <-). eauto.
  - apply has_role_unassigned. intros row _. discriminate.
  - apply has_role_unassigned.
Qed.

(** Were the function SECURITY INVOKER, the caller's own row visibility
    would decide: the student could not see the admin's row. *)
Example has_role_as_invoker_is_restricted :
  has_role_with SECURITY_INVOKER Demo.the_student Demo.accepted (Some "u-2") (Some admin)
    = false
  /\ has_role Demo.the_student Demo.accepted (Some "u-2") (Some admin) = true.
Proof. split; reflexivity. Qed.

(** ** Updates of applications *)

Lemma mapM_Ok_map {A B} (f : A -> result B) (g : A -> B) (l : list A) :
  (forall a, a ∈ l -> f a = Ok (g a)) -> mapM f l = Ok (List.map g l).
Proof.
  induction l as [|a l IH]; intros Hf; [reflexivity|].
  cbn. rewrite (Hf a) by left. cbn.
  rewrite IH by (intros b Hb; apply Hf; by right). reflexivity.
Qed.

Lemma set_applications_id d : set_applications d (applications d) = d.
Proof. by destruct d. Qed.

Lemma application_update_visible s d a :
  row_visible UPDATE applications_policies s d a
  = has_role s d (auth_uid s) (Some admin).
Proof.
  unfold row_visible.
  change (using_quals UPDATE applications_policies)
    with [@caller_is_admin Application.t].
  cbn [existsb]. unfold caller_is_admin. by rewrite orb_false_r, passes_Some.
Qed.

Lemma application_update_allowed s d a :
  row_allowed UPDATE applications_policies s d a
  = has_role s d (auth_uid s) (Some admin).
Proof.
  unfold row_allowed.
  change (check_quals UPDATE applications_policies)
    with [@caller_is_admin Application.t].
  cbn [existsb]. unfold caller_is_admin. by rewrite orb_false_r, passes_Some.
Qed.

Lemma application_select_visible s d a :
  row_visible SELECT applications_policies s d a
  = passes (sql_eq (auth_uid s) (Some (Application.student_id a)))
    || has_role s d (auth_uid s) (Some admin).
Proof.
  unfold row_visible.
  change (using_quals SELECT applications_policies)
    with [own_application; @caller_is_admin Application.t].
  cbn [existsb]. unfold caller_is_admin, own_application.
  by rewrite orb_false_r, passes_Some.
Qed.

Lemma update_row_admin s d id status feedback now a :
  has_role s d (auth_uid s) (Some admin) = true ->
  status_check status = true ->
  update_row s d id status feedback now a
  = Ok (updated_row id status feedback now a).
Proof.
  intros Hadmin Hcheck. unfold update_row, update_targets, updated_row.
  rewrite application_update_visible, application_select_visible, Hadmin.
  rewrite orb_true_r, !andb_true_r.
  case_bool_decide; [|reflexivity].
  rewrite application_update_allowed, application_select_visible, Hadmin.
  rewrite orb_true_r. cbn. by rewrite Hcheck.
Qed.

Lemma update_row_not_admin s d id status feedback now a :
  has_role s d (auth_uid s) (Some admin) = false ->
  update_row s d id status feedback now a = Ok a.
Proof.
  intros Hadmin. unfold update_row, update_targets.
  by rewrite application_update_visible, Hadmin, andb_false_r.
Qed.

Lemma update_application_admin s d id status feedback now :
  has_role s d (auth_uid s) (Some admin) = true ->
  status_check status = true ->
  update_application s id status feedback now d
  = Ok (set_applications d
          (List.map (updated_row id status feedback now) (applications d))).
Proof.
  intros Hadmin Hcheck. unfold update_application.
  rewrite (mapM_Ok_map _ (updated_row id status feedback now)); [reflexivity|].
  intros a _. by apply update_row_admin.
Qed.

Lemma update_application_not_admin s d id status feedback now :
  has_role s d (auth_uid s) (Some admin) = false ->
  update_application s id status feedback now d = Ok d.
Proof.
  intros Hadmin. unfold update_application.
  rewrite (mapM_Ok_map _ (fun a => a)).
  - cbn. by rewrite map_id, set_applications_id.
  - intros a _. by apply update_row_not_admin.
Qed.

(** ** C1 *)

(** C1, as the code has it: the UPDATE policy on applications looks at the
    caller's role only.  For a principal holding the admin role an update to
    any of the three statuses succeeds on every application, whatever its
    current status (accepted and rejected included, back to pending
    included); for any other principal the update touches no row and
    reports no error.  The current status is looked at by the admin page
    alone, which renders the accept / reject controls for pending
    applications only. *)
Theorem status_update_policy_ignores_current_status (s : session) (d : db)
    (id : uuid) (new_status : string) (feedback : option string)
    (now : timestamptz) :
  new_status ∈ ["pending"; "accepted"; "rejected"] ->
  (has_role s d (auth_uid s) (Some admin) = true ->
   update_application s id (Some new_status) feedback now d
   = Ok (set_applications d
           (List.map (updated_row id (Some new_status) feedback now)
                     (applications d))))
  /\ (has_role s d (auth_uid s) (Some admin) = false ->
      update_application s id (Some new_status) feedback now d = Ok d)
  /\ (forall a, status_controls_rendered a = true
                <-> Application.status a = Some "pending").
Proof.
  intros Hstatus. split; [|split].
  - intros Hadmin. apply update_application_admin; [done|].
    by apply bool_decide_eq_true.
  - apply update_application_not_admin.
  - intros a. apply bool_decide_eq_true.
Qed.

Lemma status_update_policy_ignores_current_status_witness :
  update_application Demo.the_admin "a-1" (Some "rejected") None 5 Demo.accepted
  = Ok (set_applications Demo.accepted
          (List.map (updated_row "a-1" (Some "rejected") None 5)
                    (applications Demo.accepted)))
  /\ update_application Demo.the_student "a-1" (Some "rejected") None 5 Demo.accepted
     = Ok Demo.accepted.
Proof.
  pose proof (status_update_policy_ignores_current_status
                Demo.the_admin Demo.accepted "a-1" "rejected" None 5) as Hadmin.
  pose proof (status_update_policy_ignores_current_status
                Demo.the_student Demo.accepted "a-1" "rejected" None 5) as Hstudent.
  split.
  - apply Hadmin; [|reflexivity]. right. right. left.
  - apply Hstudent; [|reflexivity]. right. right. left.
Defined.

(** C1 as stated fails: the admin moves an accepted application back to
    pending, and the datastore stores it. *)
Lemma accepted_application_reopened :
  exists (s : session) (d d' : db) (a a' : Application.t),
    a ∈ applications d
    /\ Application.status a = Some "accepted"
    /\ update_application s (Application.id a) (Some "pending") None 5 d = Ok d'
    /\ a' ∈ applications d'
    /\ Application.id a' = Application.id a
    /\ Application.status a' = Some "pending".
Proof.
  exists Demo.the_admin, Demo.accepted.
  eexists. eexists. eexists.
  split; [left|]. split; [reflexivity|]. split; [vm_compute; reflexivity|].
  split; [left|]. split; reflexivity.
Qed.

(** ** Principal creation *)

Lemma guard_bind_Ok {A} e b (k : unit -> result A) x :
  guard_or e b ≫= k = Ok x -> b = true /\ k tt = Ok x.
Proof. destruct b; cbn; [auto | discriminate]. Qed.

(** Statements whose outcome is known: walk through their guards. *)
Ltac pass_guards H := repeat (apply guard_bind_Ok in H as [_ H]).

Lemma existsb_false_filter {A} (f : A -> bool) l :
  existsb f l = false -> List.filter f l = [].
Proof.
  induction l as [|a l IH]; cbn; [done|].
  intros [Ha Hl]%orb_false_iff. rewrite Ha. auto.
Qed.

Lemma insert_user_role_Ok rid u r d d' :
  insert_user_role rid u r d = Ok d' ->
  d' = set_user_roles d (user_roles d ++ [UserRole.mk rid u r]).
Proof.
  unfold insert_user_role. intros H. pass_guards H. by injection H.
Qed.

Lemma insert_profile_Ok id fn em sid dept now d d' :
  insert_profile id fn em sid dept now d = Ok d' ->
  exists fn' em', fn = Some fn' /\ em = Some em'
    /\ existsb (fun p => bool_decide (Profile.id p = id)) (profiles d) = false
    /\ d' = set_profiles d (profiles d ++ [Profile.mk id fn' em' sid dept now]).
Proof.
  unfold insert_profile. destruct fn as [fn'|]; [|discriminate].
  destruct em as [em'|]; [|discriminate].
  intros [Hpk H]%guard_bind_Ok. pass_guards H. exists fn', em'.
  apply negb_true_iff in Hpk. injection H as <-. auto.
Qed.

Lemma assigned_role_admin new :
  assigned_role new = admin <-> requested_admin new.
Proof.
  unfold assigned_role, requested_admin.
  destruct (passes _) eqn:Hp.
  - apply passes_sql_eq in Hp as (a & -> & [= ->]). done.
  - split; [discriminate|]. intros Hreq.
    rewrite Hreq in Hp. discriminate.
Qed.

Lemma create_user_Ok new rid now d d' :
  create_user new rid now d = Ok d' ->
  existsb (fun u => bool_decide (AuthUser.id u = AuthUser.id new)) (auth_users d)
    = false
  /\ existsb (fun p => bool_decide (Profile.id p = AuthUser.id new)) (profiles d)
     = false
  /\ exists p,
       Profile.id p = AuthUser.id new
       /\ d' = Db (auth_users d ++ [new]) (profiles d ++ [p])
                 (user_roles d
                    ++ [UserRole.mk rid (AuthUser.id new) (assigned_role new)])
                 (internships d) (applications d).
Proof.
  unfold create_user. intros [Hpk H]%guard_bind_Ok.
  apply negb_true_iff in Hpk. split; [done|].
  unfold handle_new_user in H.
  destruct (insert_profile _ _ _ _ _ _ _) as [d1|] eqn:Hprofile; [|discriminate].
  apply insert_profile_Ok in Hprofile as (fn & em & _ & _ & Hfresh & ->).
  split; [done|]. eexists. split; [|].
  2:{ unfold assigned_role. cbn in H.
      destruct (passes _); apply insert_user_role_Ok in H; subst d'; reflexivity. }
  reflexivity.
Qed.

Lemma count_snoc {A} (f : A -> bool) l a :
  length (List.filter f (l ++ [a]))
  = length (List.filter f l) + (if f a then 1 else 0).
Proof.
  rewrite List.filter_app, length_app. cbn. by destruct (f a).
Qed.

Lemma create_user_paired new rid now d d' :
  paired d -> create_user new rid now d = Ok d' ->
  paired d'
  /\ count_profiles d' (AuthUser.id new) = 1
  /\ count_roles d' (AuthUser.id new) = 1.
Proof.
  intros Hpaired (Hu & Hp & p & Hid & ->)%create_user_Ok.
  assert (Hzero : count_users d (AuthUser.id new) = 0).
  { unfold count_users. by rewrite existsb_false_filter. }
  assert (Hstep : forall u,
    count_users (Db (auth_users d ++ [new]) (profiles d ++ [p])
                   (user_roles d ++ [UserRole.mk rid (AuthUser.id new) (assigned_role new)])
                   (internships d) (applications d)) u
      = count_users d u + (if bool_decide (AuthUser.id new = u) then 1 else 0)
    /\ count_profiles (Db (auth_users d ++ [new]) (profiles d ++ [p])
                   (user_roles d ++ [UserRole.mk rid (AuthUser.id new) (assigned_role new)])
                   (internships d) (applications d)) u
      = count_profiles d u + (if bool_decide (AuthUser.id new = u) then 1 else 0)
    /\ count_roles (Db (auth_users d ++ [new]) (profiles d ++ [p])
                   (user_roles d ++ [UserRole.mk rid (AuthUser.id new) (assigned_role new)])
                   (internships d) (applications d)) u
      = count_roles d u + (if bool_decide (AuthUser.id new = u) then 1 else 0)).
  { intros u. unfold count_users, count_profiles, count_roles. cbn.
    rewrite !count_snoc. cbn. by rewrite Hid. }
  split; [|split].
  - intros u. destruct (Hstep u) as (-> & -> & ->).
    destruct (Hpaired u) as (Hp1 & Hr1 & Hle).
    case_bool_decide as Hnew; [subst u; rewrite Hzero in *|]; lia.
  - destruct (Hstep (AuthUser.id new)) as (_ & -> & _).
    destruct (Hpaired (AuthUser.id new)) as (-> & _ & _).
    rewrite Hzero, bool_decide_true by done. reflexivity.
  - destruct (Hstep (AuthUser.id new)) as (_ & _ & ->).
    destruct (Hpaired (AuthUser.id new)) as (_ & -> & _).
    rewrite Hzero, bool_decide_true by done. reflexivity.
Qed.

Lemma insert_application_Ok s a d d' :
  insert_application s a d = Ok d' ->
  existsb (fun b => bool_decide (Application.key b = Application.key a))
          (applications d) = false
  /\ d' = set_applications d (applications d ++ [a]).
Proof.
  unfold insert_application.
  intros [_ H]%guard_bind_Ok. apply guard_bind_Ok in H as [_ H].
  apply guard_bind_Ok in H as [_ H]. apply guard_bind_Ok in H as [Hkey H].
  pass_guards H. apply negb_true_iff in Hkey. by injection H.
Qed.

Lemma mapM_Ok_keys {A B K} (f : A -> result B) (ka : A -> K) (kb : B -> K)
    (l : list A) (l' : list B) :
  (forall a b, f a = Ok b -> kb b = ka a) ->
  mapM f l = Ok l' -> List.map kb l' = List.map ka l.
Proof.
  intros Hf. revert l'. induction l as [|a l IH]; intros l'; cbn.
  - by intros [= <-].
  - destruct (f a) as [b|] eqn:Hb; [|discriminate]. cbn.
    destruct (mapM f l) as [bs|]; [|discriminate]. cbn.
    intros [= <-]. cbn. by rewrite (Hf a b Hb), (IH bs).
Qed.

Lemma update_row_key s d id status feedback now a b :
  update_row s d id status feedback now a = Ok b ->
  Application.key b = Application.key a.
Proof.
  unfold update_row. destruct (update_targets s d id a); [|by intros [= <-]].
  intros H. pass_guards H. by injection H as <-.
Qed.

Lemma update_application_Ok s id status feedback now d d' :
  update_application s id status feedback now d = Ok d' ->
  auth_users d' = auth_users d /\ profiles d' = profiles d
  /\ user_roles d' = user_roles d
  /\ List.map Application.key (applications d')
     = List.map Application.key (applications d).
Proof.
  unfold update_application.
  destruct (mapM _ _) as [rows|] eqn:Hrows; [|discriminate].
  cbn. intros [= <-]. cbn. repeat split.
  eapply mapM_Ok_keys; [|exact Hrows]. apply update_row_key.
Qed.

Lemma paired_ext d d' :
  auth_users d' = auth_users d -> profiles d' = profiles d ->
  user_roles d' = user_roles d -> paired d -> paired d'.
Proof.
  intros Hu Hp Hr Hpaired u.
  unfold count_users, count_profiles, count_roles. rewrite Hu, Hp, Hr.
  apply Hpaired.
Qed.

Lemma insert_internship_Ok s i d d' :
  insert_internship s i d = Ok d' ->
  d' = set_internships d (internships d ++ [i]).
Proof.
  unfold insert_internship. intros H. pass_guards H. by injection H.
Qed.

Lemma update_internship_Ok s id new d d' :
  update_internship s id new d = Ok d' ->
  exists rows, d' = set_internships d rows.
Proof.
  unfold update_internship.
  destruct (mapM _ _) as [rows|]; [|discriminate].
  cbn. intros [= <-]. by exists rows.
Qed.

Lemma delete_internship_Ok s id d d' :
  delete_internship s id d = Ok d' ->
  auth_users d' = auth_users d /\ profiles d' = profiles d
  /\ user_roles d' = user_roles d
  /\ exists keep, applications d' = List.filter keep (applications d).
Proof.
  unfold delete_internship. intros [= <-]. cbn. repeat split. eauto.
Qed.

Lemma NoDup_map_filter {A B} (f : A -> B) (keep : A -> bool) (l : list A) :
  NoDup (List.map f l) -> NoDup (List.map f (List.filter keep l)).
Proof.
  induction l as [|a l IH]; cbn; [done|].
  intros [Hnotin Hl]%NoDup_cons. destruct (keep a); cbn; [|by apply IH].
  apply NoDup_cons. split; [|by apply IH].
  intros (b & Hfb & Hb)%list_elem_of_fmap. apply Hnotin.
  apply list_elem_of_fmap. exists b. split; [done|].
  apply list_elem_of_In in Hb. apply filter_In in Hb as [Hb _].
  by apply list_elem_of_In.
Qed.

Lemma reachable_paired d : reachable d -> paired d.
Proof.
  induction 1 as [sample | d d' _ IH Hstep].
  - intros u. cbn. lia.
  - destruct Hstep as [d new rid now d' Hc | d s a d' Hi
                      | d s id st fb now d' Hu | d s i d' Hi
                      | d s id new d' Hu | d s id d' Hd].
    + by apply (create_user_paired new rid now d d').
    + apply insert_application_Ok in Hi as [_ ->]. by apply (paired_ext d).
    + apply update_application_Ok in Hu as (? & ? & ? & _). by apply (paired_ext d).
    + apply insert_internship_Ok in Hi as ->. by apply (paired_ext d).
    + apply update_internship_Ok in Hu as (rows & ->). by apply (paired_ext d).
    + apply delete_internship_Ok in Hd as (? & ? & ? & _). by apply (paired_ext d).
Qed.


(** ** The run is reachable *)

Lemma demo_enrolled_reachable : reachable Demo.enrolled.
Proof.
  apply (reachable_step Demo.migrated); [apply reachable_fresh|].
  apply (step_create_user _ Demo.student_user "r-1" 1). vm_compute. reflexivity.
Qed.

Lemma demo_staffed_reachable : reachable Demo.staffed.
Proof.
  apply (reachable_step Demo.enrolled); [apply demo_enrolled_reachable|].
  apply (step_create_user _ Demo.admin_user "r-2" 2). vm_compute. reflexivity.
Qed.

Lemma demo_delisted_reachable : reachable Demo.delisted.
Proof.
  apply (reachable_step Demo.staffed); [apply demo_staffed_reachable|].
  apply (step_update_internship _ Demo.the_admin "i-2" (Demo.datastream false)).
  vm_compute. reflexivity.
Qed.

Lemma demo_applied_reachable : reachable Demo.applied.
Proof.
  apply (reachable_step Demo.delisted); [apply demo_delisted_reachable|].
  apply (step_insert_application _ Demo.the_student Demo.first_application).
  vm_compute. reflexivity.
Qed.

Lemma demo_accepted_reachable : reachable Demo.accepted.
Proof.
  apply (reachable_step Demo.applied); [apply demo_applied_reachable|].
  apply (step_update_application _ Demo.the_admin "a-1"
           (Some "accepted") (Some "Great fit") 4).
  vm_compute. reflexivity.
Qed.

(** ** When a principal can be created *)

Lemma count_zero_existsb {A} (f : A -> bool) (l : list A) :
  length (List.filter f l) = 0 -> existsb f l = false.
Proof.
  induction l as [|a l IH]; cbn; [done|].
  destruct (f a); cbn; [discriminate | exact IH].
Qed.

Lemma existsb_snoc {A} (f : A -> bool) (l : list A) (a : A) :
  f a = true -> existsb f (l ++ [a]) = true.
Proof. intros Ha. rewrite existsb_app. cbn. by rewrite Ha, orb_true_r. Qed.

(** In a reachable state the creation of a principal goes through as soon
    as its id and the id drawn for its role row are new, its email is
    there, and its student id, if any, is not taken. *)
Lemma create_user_succeeds d new rid now em :
  reachable d ->
  AuthUser.email new = Some em ->
  existsb (fun u => bool_decide (AuthUser.id u = AuthUser.id new)) (auth_users d)
    = false ->
  existsb (fun p => passes (sql_eq (Profile.student_id p)
                              (AuthUser.raw_user_meta_data new !! "student_id")))
          (profiles d) = false ->
  existsb (fun r => bool_decide (UserRole.id r = rid)) (user_roles d) = false ->
  exists d', create_user new rid now d = Ok d'.
Proof.
  intros Hreach Hemail Hnew Hsid Hrid.
  destruct (reachable_paired d Hreach (AuthUser.id new)) as (Hprofiles & Hroles & _).
  assert (count_users d (AuthUser.id new) = 0) as Hzero.
  { unfold count_users. by rewrite existsb_false_filter. }
  rewrite Hzero in Hprofiles, Hroles.
  apply count_zero_existsb in Hprofiles, Hroles.
  assert (forall r,
    existsb (fun x => bool_decide (UserRole.user_id x = AuthUser.id new)
                      && bool_decide (UserRole.role x = r)) (user_roles d)
    = false) as Hpair.
  { intros r. apply not_true_is_false. intros (x & Hx & Hq)%existsb_exists.
    apply andb_true_iff in Hq as [Hq _].
    assert (existsb (fun x => bool_decide (UserRole.user_id x = AuthUser.id new))
              (user_roles d) = true) as Hex
      by (apply existsb_exists; eauto).
    congruence. }
  unfold create_user, handle_new_user, insert_profile, insert_user_role.
  rewrite Hnew, Hemail. cbn.
  rewrite Hprofiles, Hsid. cbn.
  rewrite existsb_snoc by (by apply bool_decide_eq_true). cbn.
  destruct (passes _); cbn; rewrite Hrid, Hpair; cbn;
    (rewrite existsb_snoc by (by apply bool_decide_eq_true)); cbn; eauto.
Qed.

(** ** C4 *)

(** C4: in every reachable state each principal has exactly one profile and
    exactly one role assignment and nobody else has either, before and
    after any attempt to create a principal; a creation that succeeds adds
    the principal, one profile row and one role row in one step, and the
    role is admin exactly when the sign-up metadata asked for admin, and
    student otherwise. *)
Theorem principal_creation_pairs_profile_and_role (d : db) (new : AuthUser.t)
    (rid : uuid) (now : timestamptz) :
  reachable d ->
  paired d
  /\ paired (commit d (create_user new rid now d))
  /\ forall d', create_user new rid now d = Ok d' ->
       exists p r,
         auth_users d' = auth_users d ++ [new]
         /\ profiles d' = profiles d ++ [p]
         /\ Profile.id p = AuthUser.id new
         /\ user_roles d' = user_roles d ++ [r]
         /\ UserRole.user_id r = AuthUser.id new
         /\ (UserRole.role r = admin <-> requested_admin new)
         /\ (UserRole.role r = student <-> ¬ requested_admin new)
         /\ count_profiles d' (AuthUser.id new) = 1
         /\ count_roles d' (AuthUser.id new) = 1.
Proof.
  intros Hreach. pose proof (reachable_paired d Hreach) as Hpaired.
  split; [exact Hpaired|]. split.
  - destruct (create_user new rid now d) as [d'|e] eqn:Hc; [|exact Hpaired].
    by apply (create_user_paired new rid now d d').
  - intros d' Hc.
    destruct (create_user_paired new rid now d d' Hpaired Hc) as (_ & Hp1 & Hr1).
    apply create_user_Ok in Hc as (_ & _ & p & Hid & ->).
    exists p, (UserRole.mk rid (AuthUser.id new) (assigned_role new)).
    cbn [auth_users profiles user_roles UserRole.user_id UserRole.role].
    repeat split; try done.
    + by apply assigned_role_admin.
    + by apply assigned_role_admin.
    + intros Hst Hreq. apply assigned_role_admin in Hreq. congruence.
    + intros Hnot. destruct (assigned_role new) eqn:Hrole; [done|].
      by apply assigned_role_admin in Hrole.
Qed.

Lemma principal_creation_pairs_profile_and_role_witness :
  paired Demo.staffed
  /\ exists p r,
       profiles Demo.staffed = profiles Demo.enrolled ++ [p]
       /\ user_roles Demo.staffed = user_roles Demo.enrolled ++ [r]
       /\ UserRole.role r = admin.
Proof.
  destruct (principal_creation_pairs_profile_and_role Demo.enrolled Demo.admin_user
              "r-2" 2 demo_enrolled_reachable) as (_ & Hafter & Hrows).
  split; [exact Hafter|].
  assert (create_user Demo.admin_user "r-2" 2 Demo.enrolled = Ok Demo.staffed) as Hcreated
    by (vm_compute; reflexivity).
  destruct (Hrows Demo.staffed Hcreated)
    as (p & r & _ & Hp & _ & Hr & _ & Hadmin & _).
  exists p, r. split; [exact Hp|]. split; [exact Hr|].
  apply Hadmin. vm_compute. reflexivity.
Defined.

(** The page sends the mode selected on it as the requested role. *)
Lemma signup_requests_selected_role userType form :
  signup_metadata userType form !! "role" = Some (role_name userType).
Proof.
  unfold signup_metadata.
  repeat match goal with
         | |- context [match ?x with Some _ => _ | None => _ end] => destruct x
         end;
    by repeat (rewrite lookup_insert_ne by done); rewrite lookup_insert_eq.
Qed.

(** ** C3 *)

Lemma application_insert_allowed s d a :
  row_allowed INSERT applications_policies s d a
  = passes (own_pending_application s d a).
Proof.
  unfold row_allowed.
  change (check_quals INSERT applications_policies)
    with [own_pending_application].
  cbn [existsb]. by rewrite orb_false_r.
Qed.

Lemma key_taken d a :
  Application.key a ∈ List.map Application.key (applications d) ->
  existsb (fun b => bool_decide (Application.key b = Application.key a))
          (applications d) = true.
Proof.
  intros (b & Hkey & Hb)%list_elem_of_fmap. apply existsb_exists.
  exists b. split; [by apply list_elem_of_In|]. by apply bool_decide_eq_true.
Qed.






(** ** The admin's status update *)

Lemma updated_row_in id status feedback now a (l : list Application.t) :
  a ∈ l -> Application.id a = id ->
  Application.mk id (Application.internship_id a) (Application.student_id a)
    status feedback (Application.applied_at a) now
  ∈ List.map (updated_row id status feedback now) l.
Proof.
  intros Hin <-. apply list_elem_of_fmap. exists a. split; [|exact Hin].
  unfold updated_row. by rewrite bool_decide_true.
Qed.

Lemma updated_row_fields id status feedback now a' (l : list Application.t) :
  a' ∈ List.map (updated_row id status feedback now) l ->
  Application.id a' = id ->
  Application.status a' = status /\ Application.feedback a' = feedback
  /\ Application.updated_at a' = now.
Proof.
  intros (a0 & -> & _)%list_elem_of_fmap. unfold updated_row.
  case_bool_decide as Hid; [done|]. intros Hid'. by destruct Hid.
Qed.

Lemma accept_or_reject_passes_check newStatus :
  newStatus ∈ ["accepted"; "rejected"] -> status_check (Some newStatus) = true.
Proof.
  intros Hin. apply bool_decide_eq_true. by right.
Qed.

Lemma handleStatusUpdate_admin message invoke s now applicationId newStatus
    studentEmail page :
  has_role s (AdminDashboard.store page) (auth_uid s) (Some admin) = true ->
  newStatus ∈ ["accepted"; "rejected"] ->
  handleStatusUpdate message invoke s now applicationId newStatus studentEmail page
  = AdminDashboard.mk
      (set_applications (AdminDashboard.store page)
         (List.map (updated_row applicationId (Some newStatus)
                      (lookup_or_null (AdminDashboard.feedback page) applicationId)
                      now)
                   (applications (AdminDashboard.store page))))
      (AdminDashboard.invocations page
         ++ [EmailRequest.mk studentEmail (js_string newStatus)
               (lookup_or_empty (AdminDashboard.feedback page) applicationId)])
      (AdminDashboard.toasts page
         ++ [match invoke (EmailRequest.mk studentEmail (js_string newStatus)
                             (lookup_or_empty (AdminDashboard.feedback page)
                                applicationId)) with
             | Some _ => toast_error "Status updated but email notification failed"
             | None => toast_success ("Application " +:+ newStatus
                                      +:+ " and email sent!")
             end])
      (<[applicationId := ""]> (AdminDashboard.feedback page))
      None.
Proof.
  intros Hadmin Hstatus. unfold handleStatusUpdate.
  rewrite update_application_admin;
    [reflexivity | exact Hadmin | by apply accept_or_reject_passes_check].
Qed.

(** ** C6 *)

(** C6: when an admin accepts or rejects an application, the write stores
    the new status, the feedback and the refreshed timestamp; the page then
    invokes the notification function once, whatever the outcome; when that
    call fails the datastore stays as the write left it (no second write,
    no second call) and the admin is shown the warning that the status was
    updated but the notification failed, a toast that is neither the
    success toast nor the generic update failure. *)
Theorem failed_notification_keeps_the_status_change
    (message : db_error -> string) (invoke : EmailRequest.t -> option string)
    (s : session) (now : timestamptz)
    (applicationId newStatus studentEmail : string)
    (page : AdminDashboard.t) (a : Application.t) (error : string) :
  has_role s (AdminDashboard.store page) (auth_uid s) (Some admin) = true ->
  newStatus ∈ ["accepted"; "rejected"] ->
  a ∈ applications (AdminDashboard.store page) ->
  Application.id a = applicationId ->
  invoke (EmailRequest.mk studentEmail (js_string newStatus)
            (lookup_or_empty (AdminDashboard.feedback page) applicationId))
    = Some error ->
  Ok (AdminDashboard.store
        (handleStatusUpdate message invoke s now applicationId newStatus
           studentEmail page))
    = update_application s applicationId (Some newStatus)
        (lookup_or_null (AdminDashboard.feedback page) applicationId) now
        (AdminDashboard.store page)
  /\ Application.mk applicationId (Application.internship_id a)
       (Application.student_id a) (Some newStatus)
       (lookup_or_null (AdminDashboard.feedback page) applicationId)
       (Application.applied_at a) now
     ∈ applications
         (AdminDashboard.store
            (handleStatusUpdate message invoke s now applicationId newStatus
               studentEmail page))
  /\ AdminDashboard.invocations
       (handleStatusUpdate message invoke s now applicationId newStatus
          studentEmail page)
     = AdminDashboard.invocations page
       ++ [EmailRequest.mk studentEmail (js_string newStatus)
             (lookup_or_empty (AdminDashboard.feedback page) applicationId)]
  /\ AdminDashboard.toasts
       (handleStatusUpdate message invoke s now applicationId newStatus
          studentEmail page)
     = AdminDashboard.toasts page
       ++ [toast_error "Status updated but email notification failed"]
  /\ toast_error "Status updated but email notification failed"
     ≠ toast_error "Error updating application"
  /\ toast_error "Status updated but email notification failed"
     ≠ toast_success ("Application " +:+ newStatus +:+ " and email sent!").
Proof.
  intros Hadmin Hstatus Hin Hid Hfail.
  rewrite (handleStatusUpdate_admin message invoke s now applicationId newStatus
             studentEmail page Hadmin Hstatus).
  cbn [AdminDashboard.store AdminDashboard.invocations AdminDashboard.toasts].
  rewrite Hfail. split; [|split; [|split; [|split; [|split]]]].
  - symmetry. apply update_application_admin; [exact Hadmin|].
    by apply accept_or_reject_passes_check.
  - cbn [applications set_applications]. by apply updated_row_in.
  - reflexivity.
  - reflexivity.
  - discriminate.
  - discriminate.
Qed.

(** An [invoke] whose mail service is down. *)
Lemma failed_notification_keeps_the_status_change_witness :
  Application.mk "a-1" "i-1" "u-1" (Some "accepted") (Some "Great fit") 3 4
  ∈ applications
      (AdminDashboard.store
         (handleStatusUpdate demo_message
            (invoke_via (fun _ => Resend.throws "connection refused"))
            Demo.the_admin 4 "a-1" "accepted" "student@klu.edu"
            (AdminDashboard.mk Demo.applied [] [] {[ "a-1" := "Great fit" ]} None)))
  /\ AdminDashboard.toasts
       (handleStatusUpdate demo_message
          (invoke_via (fun _ => Resend.throws "connection refused"))
          Demo.the_admin 4 "a-1" "accepted" "student@klu.edu"
          (AdminDashboard.mk Demo.applied [] [] {[ "a-1" := "Great fit" ]} None))
     = [toast_error "Status updated but email notification failed"].
Proof.
  destruct (failed_notification_keeps_the_status_change demo_message
              (invoke_via (fun _ => Resend.throws "connection refused"))
              Demo.the_admin 4 "a-1" "accepted" "student@klu.edu"
              (AdminDashboard.mk Demo.applied [] [] {[ "a-1" := "Great fit" ]} None)
              Demo.first_application
              "Edge Function returned a non-2xx status code")
    as (_ & Hrow & _ & Htoast & _).
  - vm_compute. reflexivity.
  - left.
  - vm_compute. left.
  - reflexivity.
  - vm_compute. reflexivity.
  - split; [exact Hrow | exact Htoast].
Defined.

(** ** C10 *)

(** C10: after an admin's status update the feedback stored with the
    application is the text entered for it when that text is not empty and
    NULL otherwise, whatever feedback the row held before, and the
    notification call gets the entered text, or the empty string when none
    was entered. *)
Theorem status_update_overwrites_feedback
    (message : db_error -> string) (invoke : EmailRequest.t -> option string)
    (s : session) (now : timestamptz)
    (applicationId newStatus studentEmail : string)
    (page : AdminDashboard.t) (a : Application.t) :
  has_role s (AdminDashboard.store page) (auth_uid s) (Some admin) = true ->
  newStatus ∈ ["accepted"; "rejected"] ->
  a ∈ applications (AdminDashboard.store page) ->
  Application.id a = applicationId ->
  (exists a',
     a' ∈ applications
            (AdminDashboard.store
               (handleStatusUpdate message invoke s now applicationId newStatus
                  studentEmail page))
     /\ Application.id a' = applicationId)
  /\ (forall a',
        a' ∈ applications
               (AdminDashboard.store
                  (handleStatusUpdate message invoke s now applicationId
                     newStatus studentEmail page)) ->
        Application.id a' = applicationId ->
        Application.feedback a'
        = match AdminDashboard.feedback page !! applicationId with
          | Some text => if bool_decide (text = "") then None else Some text
          | None => None
          end)
  /\ exists body,
       AdminDashboard.invocations
         (handleStatusUpdate message invoke s now applicationId newStatus
            studentEmail page)
       = AdminDashboard.invocations page ++ [body]
       /\ EmailRequest.feedback body
          = match AdminDashboard.feedback page !! applicationId with
            | Some text => text
            | None => ""
            end.
Proof.
  intros Hadmin Hstatus Hin Hid.
  rewrite (handleStatusUpdate_admin message invoke s now applicationId newStatus
             studentEmail page Hadmin Hstatus).
  cbn [AdminDashboard.store AdminDashboard.invocations applications
       set_applications].
  split; [|split].
  - eexists. split; [by apply (updated_row_in _ _ _ _ a)|reflexivity].
  - intros a' Ha' Hid'.
    destruct (updated_row_fields _ _ _ _ a' _ Ha' Hid') as (_ & -> & _).
    unfold lookup_or_null, js_truthy.
    destruct (AdminDashboard.feedback page !! applicationId) as [text|];
      [|reflexivity].
    by case_bool_decide.
  - eexists. split; [reflexivity|]. cbn [EmailRequest.feedback].
    unfold lookup_or_empty, js_truthy.
    destruct (AdminDashboard.feedback page !! applicationId) as [text|];
      [|reflexivity].
    by case_bool_decide.
Qed.

(** The accepted application of the run is rejected with nothing entered:
    the notification gets the empty string. *)
Lemma status_update_overwrites_feedback_witness :
  exists body,
    AdminDashboard.invocations
      (handleStatusUpdate demo_message (fun _ => None)
         Demo.the_admin 5 "a-1" "rejected" "student@klu.edu"
         (AdminDashboard.mk Demo.accepted [] [] ∅ None))
    = [body]
    /\ EmailRequest.feedback body = "".
Proof.
  destruct (status_update_overwrites_feedback demo_message (fun _ => None)
              Demo.the_admin 5 "a-1" "rejected" "student@klu.edu"
              (AdminDashboard.mk Demo.accepted [] [] ∅ None)
              (Application.mk "a-1" "i-1" "u-1" (Some "accepted")
                 (Some "Great fit") 3 4))
    as (_ & _ & body & Hcall & Hfeedback).
  - vm_compute. reflexivity.
  - right. left.
  - vm_compute. left.
  - reflexivity.
  - exists body. split; [exact Hcall | exact Hfeedback].
Defined.

(** And the feedback stored with it is cleared. *)
Example rejecting_without_feedback_clears_it :
  Application.feedback
    <$> applications
          (AdminDashboard.store
             (handleStatusUpdate demo_message (fun _ => None)
                Demo.the_admin 5 "a-1" "rejected" "student@klu.edu"
                (AdminDashboard.mk Demo.accepted [] [] ∅ None)))
  = [None].
Proof. vm_compute. reflexivity. Qed.

(** ** Form validation *)

Lemma parse_signup is_email userType form :
  parse_object is_email signupSchema (signup_data userType form)
  = (if is_email (trim (Auth.su_email form)) then []
     else ["Invalid email address"])
    ++ (if Nat.ltb (js_length (Auth.su_password form)) 6
        then ["Password must be at least 6 characters"] else [])
    ++ (if Nat.ltb (js_length (trim (Auth.su_fullName form))) 1
        then ["Full name is required"] else []).
Proof.
  unfold parse_object, signupSchema.
  cbn [flat_map fst snd signup_data parse_field run_checks].
  destruct userType; cbn [bool_decide decide_rel]; by rewrite ?app_nil_r.
Qed.

Lemma parse_signin is_email form :
  parse_object is_email signinSchema (signin_data form)
  = (if is_email (trim (Auth.si_email form)) then []
     else ["Invalid email address"])
    ++ (if Nat.ltb (js_length (Auth.si_password form)) 1
        then ["Password is required"] else []).
Proof.
  unfold parse_object, signinSchema.
  cbn [flat_map fst snd signin_data parse_field run_checks].
  by rewrite ?app_nil_r.
Qed.

Lemma length_below_one s : Nat.ltb (js_length s) 1 = bool_decide (s = "").
Proof.
  destruct s as [|c rest]; [done|].
  rewrite bool_decide_false by done. apply Nat.ltb_ge.
  unfold js_length. cbn [js_length_from]. unfold code_units.
  destruct (_ && _); lia.
Qed.

Lemma handleSignUp_cases is_email signUp_error userType form :
  handleSignUp is_email signUp_error userType form
  = if negb (is_email (trim (Auth.su_email form))) then
      Auth.mk_effects [] [toast_error "Invalid email address"] None
    else if Nat.ltb (js_length (Auth.su_password form)) 6 then
      Auth.mk_effects []
        [toast_error "Password must be at least 6 characters"] None
    else if bool_decide (trim (Auth.su_fullName form) = "") then
      Auth.mk_effects [] [toast_error "Full name is required"] None
    else
      match signUp_error (Auth.su_email form) (Auth.su_password form)
              (signup_metadata userType form) with
      | Some message =>
          Auth.mk_effects
            [Auth.auth_signUp (Auth.su_email form) (Auth.su_password form)
               (signup_metadata userType form)]
            [toast_error (js_or message "Error creating account")] None
      | None =>
          Auth.mk_effects
            [Auth.auth_signUp (Auth.su_email form) (Auth.su_password form)
               (signup_metadata userType form)]
            [toast_success "Account created successfully!"]
            (Some (dashboard_of (bool_decide (userType = admin))))
      end.
Proof.
  unfold handleSignUp. rewrite parse_signup, length_below_one.
  destruct (is_email _); cbn [negb];
    destruct (Nat.ltb _ 6); try reflexivity;
    by destruct (bool_decide (trim _ = "")).
Qed.

Lemma handleSignIn_cases is_email signIn_error getUser d form :
  handleSignIn is_email signIn_error getUser d form
  = if negb (is_email (trim (Auth.si_email form))) then
      Auth.mk_effects [] [toast_error "Invalid email address"] None
    else if bool_decide (Auth.si_password form = "") then
      Auth.mk_effects [] [toast_error "Password is required"] None
    else
      match signIn_error (Auth.si_email form) (Auth.si_password form) with
      | Some message =>
          Auth.mk_effects
            [Auth.auth_signInWithPassword (Auth.si_email form)
               (Auth.si_password form)]
            [toast_error (js_or message "Error signing in")] None
      | None =>
          match getUser with
          | None =>
              Auth.mk_effects
                [Auth.auth_signInWithPassword (Auth.si_email form)
                   (Auth.si_password form); Auth.auth_getUser] [] None
          | Some user_id =>
              Auth.mk_effects
                [Auth.auth_signInWithPassword (Auth.si_email form)
                   (Auth.si_password form); Auth.auth_getUser;
                 Auth.select_role user_id]
                [toast_success "Signed in successfully!"]
                (Some (dashboard_of
                         (bool_decide (single_role d user_id = Some admin))))
          end
      end.
Proof.
  unfold handleSignIn. rewrite parse_signin, length_below_one.
  destruct (is_email _); cbn [negb];
    by destruct (bool_decide (Auth.si_password form = "")).
Qed.

(** ** C8 *)

(** What the length and the trimming of the schemas see: code units, not
    bytes, and the white space of Unicode. *)
Example text_as_the_schemas_measure_it :
  js_length five_accented = 5
  /\ js_length accepted_subject = 49
  /\ trim nbsp = ""
  /\ trim (nbsp +:+ " Asha Rao" +:+ nbsp) = "Asha Rao".
Proof. repeat split; vm_compute; reflexivity. Qed.

(** C8: a sign-up whose email (trimmed) is not an address, or whose
    password has fewer than 6 characters (UTF-16 code units, as the schema
    counts them), or whose name is empty (or nothing but white space),
    makes no call to the identity provider and shows one error toast: that
    of the email if the email is wrong, else that of the password if it is
    short, else that of the name.  A sign-in with a malformed email or an
    empty password is stopped the same way.  Forms that pass do reach the
    identity provider. *)
Theorem invalid_forms_stop_before_the_network
    (is_email : string -> bool)
    (signUp_error : string -> string -> gmap string string -> option string)
    (signIn_error : string -> string -> option string)
    (getUser : option uuid) (d : db)
    (userType : app_role) (form : Auth.signup_form) (login : Auth.signin_form) :
  (is_email (trim (Auth.su_email form)) = false ->
   handleSignUp is_email signUp_error userType form
   = Auth.mk_effects [] [toast_error "Invalid email address"] None)
  /\ (is_email (trim (Auth.su_email form)) = true ->
      js_length (Auth.su_password form) < 6 ->
      handleSignUp is_email signUp_error userType form
      = Auth.mk_effects []
          [toast_error "Password must be at least 6 characters"] None)
  /\ (is_email (trim (Auth.su_email form)) = true ->
      6 <= js_length (Auth.su_password form) ->
      trim (Auth.su_fullName form) = "" ->
      handleSignUp is_email signUp_error userType form
      = Auth.mk_effects [] [toast_error "Full name is required"] None)
  /\ (is_email (trim (Auth.su_email form)) = false
      \/ js_length (Auth.su_password form) < 6
      \/ Auth.su_fullName form = ""
      \/ trim (Auth.su_fullName form) = "" ->
      Auth.calls (handleSignUp is_email signUp_error userType form) = []
      /\ exists text,
           Auth.toasts (handleSignUp is_email signUp_error userType form)
           = [toast_error text])
  /\ (is_email (trim (Auth.su_email form)) = true ->
      6 <= js_length (Auth.su_password form) ->
      trim (Auth.su_fullName form) ≠ "" ->
      Auth.calls (handleSignUp is_email signUp_error userType form)
      = [Auth.auth_signUp (Auth.su_email form) (Auth.su_password form)
           (signup_metadata userType form)])
  /\ (is_email (trim (Auth.si_email login)) = false ->
      handleSignIn is_email signIn_error getUser d login
      = Auth.mk_effects [] [toast_error "Invalid email address"] None)
  /\ (is_email (trim (Auth.si_email login)) = true ->
      Auth.si_password login = "" ->
      handleSignIn is_email signIn_error getUser d login
      = Auth.mk_effects [] [toast_error "Password is required"] None)
  /\ (is_email (trim (Auth.si_email login)) = true ->
      Auth.si_password login ≠ "" ->
      exists more,
        Auth.calls (handleSignIn is_email signIn_error getUser d login)
        = Auth.auth_signInWithPassword (Auth.si_email login)
            (Auth.si_password login) :: more).
Proof.
  rewrite handleSignUp_cases, handleSignIn_cases.
  split; [|split; [|split; [|split; [|split; [|split; [|split]]]]]].
  - by intros ->.
  - intros -> Hshort%Nat.ltb_lt. by rewrite Hshort.
  - intros -> Hlong%Nat.ltb_ge Hblank. rewrite Hlong.
    by rewrite bool_decide_true.
  - intros Hbad.
    assert (is_email (trim (Auth.su_email form)) = false
            \/ Nat.ltb (js_length (Auth.su_password form)) 6 = true
            \/ trim (Auth.su_fullName form) = "") as Hcase.
    { destruct Hbad as [? | [?%Nat.ltb_lt | [Hempty | ?]]]; auto.
      right. right. by rewrite Hempty. }
    destruct (is_email _); [|by eauto]. cbn [negb].
    destruct (Nat.ltb _ 6); [by eauto|].
    case_bool_decide as Hname; [by eauto|].
    destruct Hcase as [? | [? | ?]]; done.
  - intros -> Hlong%Nat.ltb_ge Hname. rewrite Hlong.
    rewrite bool_decide_false by done. cbn [negb].
    by destruct (signUp_error _ _ _).
  - by intros ->.
  - intros -> ->. reflexivity.
  - intros -> Hpw. rewrite bool_decide_false by done. cbn [negb].
    destruct (signIn_error _ _); [by eexists|].
    destruct getUser; by eexists.
Qed.

(** A wrong email with a short password; a password of five two-byte
    letters; a name that is one no-break space; an empty sign-in
    password. *)
Lemma invalid_forms_stop_before_the_network_witness :
  handleSignUp demo_is_email (fun _ _ _ => None) student
    (Auth.mk_signup_form "asha.klu.edu" "klu" "" "2400030001" "")
  = Auth.mk_effects [] [toast_error "Invalid email address"] None
  /\ handleSignUp demo_is_email (fun _ _ _ => None) student
       (Auth.mk_signup_form " asha@klu.edu " five_accented "Asha Rao"
          "2400030001" "")
     = Auth.mk_effects []
         [toast_error "Password must be at least 6 characters"] None
  /\ handleSignUp demo_is_email (fun _ _ _ => None) student
       (Auth.mk_signup_form "asha@klu.edu" "klu@123" nbsp "2400030001" "")
     = Auth.mk_effects [] [toast_error "Full name is required"] None
  /\ handleSignIn demo_is_email (fun _ _ => None) (Some "u-1") Demo.accepted
       (Auth.mk_signin_form "student@klu.edu" "")
     = Auth.mk_effects [] [toast_error "Password is required"] None.
Proof.
  pose proof (invalid_forms_stop_before_the_network demo_is_email
                (fun _ _ _ => None) (fun _ _ => None) (Some "u-1") Demo.accepted
                student
                (Auth.mk_signup_form "asha.klu.edu" "klu" "" "2400030001" "")
                (Auth.mk_signin_form "student@klu.edu" ""))
    as (Hemail & _ & _ & _ & _ & _ & Hsignin & _).
  pose proof (invalid_forms_stop_before_the_network demo_is_email
                (fun _ _ _ => None) (fun _ _ => None) (Some "u-1") Demo.accepted
                student
                (Auth.mk_signup_form " asha@klu.edu " five_accented "Asha Rao"
                   "2400030001" "")
                (Auth.mk_signin_form "student@klu.edu" ""))
    as (_ & Hpassword & _).
  pose proof (invalid_forms_stop_before_the_network demo_is_email
                (fun _ _ _ => None) (fun _ _ => None) (Some "u-1") Demo.accepted
                student
                (Auth.mk_signup_form "asha@klu.edu" "klu@123" nbsp
                   "2400030001" "")
                (Auth.mk_signin_form "student@klu.edu" ""))
    as (_ & _ & Hname & _).
  split; [apply Hemail; vm_compute; reflexivity|].
  split; [apply Hpassword; [vm_compute; reflexivity | vm_compute; lia]|].
  split; [apply Hname; [vm_compute; reflexivity | vm_compute; lia
                       | vm_compute; reflexivity]|].
  apply Hsignin; vm_compute; reflexivity.
Defined.


(** ** The notification function *)

Lemma subjects_differ : accepted_subject ≠ rejected_subject.
Proof. discriminate. Qed.

(** The two templates differ in the colour of their heading, so no feedback text makes
    one message the other. *)
Lemma templates_differ feedback feedback' :
  accepted_html feedback ≠ rejected_html feedback'.
Proof.
  intros Heq.
  assert (String.get 109 (accepted_html feedback)
          = String.get 109 (rejected_html feedback')) as Hchar
    by (by rewrite Heq).
  vm_compute in Hchar. discriminate Hchar.
Qed.

Lemma strict_eq_string_true v text :
  strict_eq_string v text = true <-> v = js_string text.
Proof. apply bool_decide_eq_true. Qed.

Lemma handler_post resend body :
  handler resend (Http.mk_request "POST" (inr body))
  = match resend (Resend.mk "KLU Internship Portal <onboarding@resend.dev>"
                    [EmailRequest.to body]
                    (compose_subject (EmailRequest.status body))
                    (compose_message (EmailRequest.status body)
                       (EmailRequest.feedback body))) with
    | Resend.throws error_message =>
        Http.mk_response 500 (Http.json_error error_message)
    | Resend.responds false _ data_message =>
        Http.mk_response 500
          (Http.json_error (js_or data_message "Failed to send email"))
    | Resend.responds true data _ => Http.mk_response 200 (Http.json_data data)
    end.
Proof. reflexivity. Qed.

Lemma handler_post_succeeds resend body :
  Http.status (handler resend (Http.mk_request "POST" (inr body))) = 200
  <-> exists data data_message,
        resend (Resend.mk "KLU Internship Portal <onboarding@resend.dev>"
                  [EmailRequest.to body]
                  (compose_subject (EmailRequest.status body))
                  (compose_message (EmailRequest.status body)
                     (EmailRequest.feedback body)))
        = Resend.responds true data data_message.
Proof.
  rewrite handler_post.
  destruct (resend _) as [error_message | [] data data_message];
    cbn [Http.status]; split; try discriminate; eauto.
  - by intros (? & ? & ?).
  - by intros (? & ? & ?).
Qed.

(** ** C9 *)

(** C9: the notification function composes the acceptance subject and
    template exactly when the status of the request is the string
    accepted; for every other value, whether rejected or not a status at
    all, it composes the rejection subject and template, and it answers
    the request just as it answers the same request with status rejected:
    no status value is refused. *)
Theorem only_accepted_gets_the_acceptance_mail
    (resend : Resend.email -> Resend.outcome)
    (to : string) (status : js_value) (feedback : string) :
  (compose_subject status = accepted_subject <-> status = js_string "accepted")
  /\ (compose_message status feedback = accepted_html feedback
      <-> status = js_string "accepted")
  /\ (status ≠ js_string "accepted" ->
      compose_subject status = rejected_subject
      /\ compose_message status feedback = rejected_html feedback
      /\ handler resend (Http.mk_request "POST"
                           (inr (EmailRequest.mk to status feedback)))
         = handler resend (Http.mk_request "POST"
                             (inr (EmailRequest.mk to (js_string "rejected")
                                     feedback))))
  /\ (Http.status (handler resend (Http.mk_request "POST"
                                     (inr (EmailRequest.mk to status feedback))))
      = 200
      <-> exists data data_message,
            resend (Resend.mk "KLU Internship Portal <onboarding@resend.dev>"
                      [to] (compose_subject status)
                      (compose_message status feedback))
            = Resend.responds true data data_message).
Proof.
  unfold compose_subject, compose_message.
  destruct (strict_eq_string status "accepted") eqn:Hacc.
  - apply strict_eq_string_true in Hacc as ->.
    split; [done|]. split; [done|]. split; [done|].
    apply (handler_post_succeeds resend
             (EmailRequest.mk to (js_string "accepted") feedback)).
  - assert (status ≠ js_string "accepted") as Hne.
    { intros Heq%strict_eq_string_true. congruence. }
    split; [|split; [|split]].
    + split; [intros Hs; by destruct subjects_differ | done].
    + split; [intros Hm; symmetry in Hm; by destruct (templates_differ _ _ Hm)
             | done].
    + intros _. split; [reflexivity|]. split; [reflexivity|].
      rewrite !handler_post.
      cbn [EmailRequest.status EmailRequest.feedback EmailRequest.to].
      unfold compose_subject, compose_message. by rewrite Hacc.
    + rewrite (handler_post_succeeds resend (EmailRequest.mk to status feedback)).
      cbn [EmailRequest.status EmailRequest.feedback EmailRequest.to].
      unfold compose_subject, compose_message. by rewrite Hacc.
Qed.

Lemma only_accepted_gets_the_acceptance_mail_witness :
  compose_subject (js_string "pending") = rejected_subject
  /\ compose_subject js_undefined = rejected_subject
  /\ handler (fun _ => Resend.responds true "{}" "")
       (Http.mk_request "POST"
          (inr (EmailRequest.mk "student@klu.edu" (js_string "pending") "")))
     = Http.mk_response 200 (Http.json_data "{}").
Proof.
  pose proof (only_accepted_gets_the_acceptance_mail
                (fun _ => Resend.responds true "{}" "")
                "student@klu.edu" (js_string "pending") "")
    as (_ & _ & Hpending & _).
  pose proof (only_accepted_gets_the_acceptance_mail
                (fun _ => Resend.responds true "{}" "")
                "student@klu.edu" js_undefined "")
    as (_ & _ & Hundefined & _).
  destruct (Hpending ltac:(discriminate)) as (Hsubject & _ & Hsame).
  destruct (Hundefined ltac:(discriminate)) as (Hsubject' & _).
  split; [exact Hsubject|]. split; [exact Hsubject'|].
  rewrite Hsame. reflexivity.
Defined.

(** * Further properties *)

(** ** Who reads what *)

(** X3: a session reads an application exactly when the row is its own or
    the caller holds the admin role; a session without a user id that is
    not an admin reads none. *)
Theorem applications_read_own_or_admin (s : session) (d : db)
    (a : Application.t) :
  (a ∈ select_applications s d <->
   a ∈ applications d
   /\ (auth_uid s = Some (Application.student_id a)
       \/ has_role s d (auth_uid s) (Some admin) = true))
  /\ (auth_uid s = None -> select_applications s d = []).
Proof.
  split.
  - unfold select_applications.
    rewrite list_elem_of_In, filter_In, <- list_elem_of_In.
    rewrite application_select_visible, orb_true_iff, passes_sql_eq.
    split; intros [Hin Hwho]; (split; [exact Hin|]).
    + destruct Hwho as [(u & -> & [= ->]) | Hadmin]; auto.
    + destruct Hwho as [-> | Hadmin]; eauto.
  - intros Hanon. unfold select_applications.
    rewrite <- (List.filter_ext (fun _ => false)).
    + induction (applications d) as [|? ? IH]; [done|exact IH].
    + intros b. rewrite application_select_visible, Hanon.
      symmetry. apply orb_false_iff. split; [reflexivity|].
      apply has_role_unassigned. intros row _. discriminate.
Qed.

Lemma profile_select_visible s d p :
  row_visible SELECT profiles_policies s d p
  = passes (sql_eq (auth_uid s) (Some (Profile.id p))).
Proof.
  unfold row_visible.
  change (using_quals SELECT profiles_policies) with [own_profile].
  cbn [existsb]. unfold own_profile. by rewrite orb_false_r.
Qed.

Lemma role_select_visible s d r :
  row_visible SELECT user_roles_policies s d r
  = passes (sql_eq (auth_uid s) (Some (UserRole.user_id r))).
Proof.
  unfold row_visible.
  change (using_quals SELECT user_roles_policies) with [own_role_row].
  cbn [existsb]. unfold own_role_row. by rewrite orb_false_r.
Qed.

(** X4: a session reads a profile, or a role assignment, exactly when the
    row is its own; holding the admin role adds nothing, so an admin does
    not read the profile of an applicant. *)
Theorem profiles_and_roles_read_own_only (s : session) (d : db) :
  (forall p, p ∈ select_profiles s d <->
             p ∈ profiles d /\ auth_uid s = Some (Profile.id p))
  /\ (forall r, r ∈ select_user_roles s d <->
                r ∈ user_roles d /\ auth_uid s = Some (UserRole.user_id r)).
Proof.
  split.
  - intros p. unfold select_profiles.
    rewrite list_elem_of_In, filter_In, <- list_elem_of_In.
    rewrite profile_select_visible, passes_sql_eq.
    split; intros [Hin Hown]; (split; [exact Hin|]).
    + by destruct Hown as (u & -> & [= ->]).
    + eauto.
  - intros r. unfold select_user_roles.
    rewrite list_elem_of_In, filter_In, <- list_elem_of_In.
    rewrite role_select_visible, passes_sql_eq.
    split; intros [Hin Hown]; (split; [exact Hin|]).
    + by destruct Hown as (u & -> & [= ->]).
    + eauto.
Qed.

(** The admin of the run holds the admin role and still reads one profile,
    its own. *)
Example admin_reads_no_applicant_profile :
  has_role Demo.the_admin Demo.accepted (Some "u-2") (Some admin) = true
  /\ Profile.id <$> select_profiles Demo.the_admin Demo.accepted = ["u-2"].
Proof. split; vm_compute; reflexivity. Qed.

(** ** Who writes postings *)

Lemma internship_write_visible c s d i :
  c ≠ SELECT -> c ≠ ALL ->
  row_visible c internships_policies s d i
  = has_role s d (auth_uid s) (Some admin).
Proof.
  intros Hs Ha. unfold row_visible.
  replace (using_quals c internships_policies)
    with [@caller_is_admin Internship.t]
    by (destruct c; done).
  cbn [existsb]. unfold caller_is_admin. by rewrite orb_false_r, passes_Some.
Qed.

Lemma internship_write_allowed c s d i :
  c ≠ SELECT -> c ≠ ALL ->
  row_allowed c internships_policies s d i
  = has_role s d (auth_uid s) (Some admin).
Proof.
  intros Hs Ha. unfold row_allowed.
  replace (check_quals c internships_policies)
    with [@caller_is_admin Internship.t]
    by (destruct c; done).
  cbn [existsb]. unfold caller_is_admin. by rewrite orb_false_r, passes_Some.
Qed.

Lemma set_internships_id d : set_internships d (internships d) = d.
Proof. by destruct d. Qed.

Lemma filter_all {A} (f : A -> bool) (l : list A) :
  (forall a, f a = true) -> List.filter f l = l.
Proof.
  intros Hf. induction l as [|a l IH]; cbn; [done|]. by rewrite Hf, IH.
Qed.

Lemma filter_none {A} (f : A -> bool) (l : list A) :
  (forall a, f a = false) -> List.filter f l = [].
Proof.
  intros Hf. induction l as [|a l IH]; cbn; [done|]. by rewrite Hf.
Qed.

(** X5: a session that does not hold the admin role cannot write postings:
    its insert is refused by the policy, and its update and its delete
    touch no row, report no error and leave every table as it was. *)
Theorem postings_are_written_by_admins_only (s : session) (d : db)
    (id : uuid) (i new : Internship.t) :
  has_role s d (auth_uid s) (Some admin) = false ->
  insert_internship s i d = Err (rls_violation "internships")
  /\ update_internship s id new d = Ok d
  /\ delete_internship s id d = Ok d.
Proof.
  intros Hnot. split; [|split].
  - unfold insert_internship.
    by rewrite internship_write_allowed, Hnot.
  - unfold update_internship.
    rewrite (mapM_Ok_map _ (fun x => x)).
    + cbn. by rewrite map_id, set_internships_id.
    + intros j _. unfold update_internship_row, internship_targets.
      by rewrite internship_write_visible, Hnot, andb_false_r.
  - unfold delete_internship.
    assert (forall j, internship_targets DELETE s d id j = false) as Hnone.
    { intros j. unfold internship_targets.
      by rewrite internship_write_visible, Hnot, andb_false_r. }
    rewrite (filter_none _ _ Hnone).
    rewrite filter_all by (intros j; by rewrite Hnone).
    rewrite filter_all by done. by destruct d.
Qed.

Lemma postings_are_written_by_admins_only_witness :
  insert_internship Demo.the_student (Demo.datastream true) Demo.accepted
  = Err (rls_violation "internships")
  /\ delete_internship Demo.the_student "i-1" Demo.accepted = Ok Demo.accepted.
Proof.
  destruct (postings_are_written_by_admins_only Demo.the_student Demo.accepted
              "i-1" (Demo.datastream true) (Demo.datastream true))
    as (Hinsert & _ & Hdelete).
  - vm_compute. reflexivity.
  - split; [exact Hinsert | exact Hdelete].
Defined.

Lemma internship_targets_admin c s d id i :
  c ≠ SELECT -> c ≠ ALL ->
  has_role s d (auth_uid s) (Some admin) = true ->
  internship_targets c s d id i = bool_decide (Internship.id i = id).
Proof.
  intros Hs Ha Hadmin. unfold internship_targets.
  rewrite internship_write_visible, internship_visible, Hadmin by done.
  by rewrite orb_true_r, !andb_true_r.
Qed.

(** ** What every step does to the tables *)

Lemma mapM_Ok_Forall2 {A B} (f : A -> result B) (l : list A) (l' : list B) :
  mapM f l = Ok l' -> Forall2 (fun a b => f a = Ok b) l l'.
Proof.
  revert l'. induction l as [|a l IH]; intros l'; cbn.
  - intros [= <-]. constructor.
  - destruct (f a) as [b|] eqn:Hb; [|discriminate]. cbn.
    destruct (mapM f l) as [bs|]; [|discriminate]. cbn.
    intros [= <-]. constructor; [exact Hb | by apply IH].
Qed.

(** One row of an UPDATE of applications: left alone, or given the new
    status (which passes the CHECK), the new feedback and the time of the
    update, and nothing else. *)
Lemma update_row_Ok s d id status feedback now a b :
  update_row s d id status feedback now a = Ok b ->
  b = a
  \/ (Application.id a = id
      /\ has_role s d (auth_uid s) (Some admin) = true
      /\ status_check status = true
      /\ b = Application.mk (Application.id a) (Application.internship_id a)
               (Application.student_id a) status feedback
               (Application.applied_at a) now).
Proof.
  unfold update_row. destruct (update_targets s d id a) eqn:Ht;
    [|intros [= <-]; by left].
  intros [_ H]%guard_bind_Ok. apply guard_bind_Ok in H as [Hcheck H].
  injection H as <-. right.
  unfold update_targets in Ht.
  apply andb_true_iff in Ht as [[Hid Hupd]%andb_true_iff _].
  rewrite application_update_visible in Hupd.
  apply bool_decide_eq_true in Hid. done.
Qed.

Lemma insert_application_Ok_full s a d d' :
  insert_application s a d = Ok d' ->
  auth_uid s = Some (Application.student_id a)
  /\ Application.status a = Some "pending"
  /\ existsb (fun b => bool_decide (Application.id b = Application.id a))
             (applications d) = false
  /\ existsb (fun b => bool_decide (Application.key b = Application.key a))
             (applications d) = false
  /\ existsb (fun i => bool_decide (Internship.id i = Application.internship_id a))
             (internships d) = true
  /\ existsb (fun p => bool_decide (Profile.id p = Application.student_id a))
             (profiles d) = true
  /\ d' = set_applications d (applications d ++ [a]).
Proof.
  unfold insert_application.
  intros [Hrls H]%guard_bind_Ok. apply guard_bind_Ok in H as [_ H].
  apply guard_bind_Ok in H as [Hid H]. apply guard_bind_Ok in H as [Hkey H].
  apply guard_bind_Ok in H as [Hposting H].
  apply guard_bind_Ok in H as [Hprofile H].
  rewrite application_insert_allowed in Hrls. unfold own_pending_application in Hrls.
  rewrite passes_sql_and in Hrls. apply andb_true_iff in Hrls as [Hown Hpending].
  apply passes_sql_eq in Hown as (u & Hu & [= Hsid]). subst u.
  apply passes_sql_eq in Hpending as (st & Hst & [= Hp]). subst st.
  apply negb_true_iff in Hid, Hkey. injection H as <-. done.
Qed.

Lemma insert_profile_Ok_full id fn em sid dept now d d' :
  insert_profile id fn em sid dept now d = Ok d' ->
  exists fn' em',
    fn = Some fn' /\ em = Some em'
    /\ existsb (fun p => bool_decide (Profile.id p = id)) (profiles d) = false
    /\ existsb (fun p => passes (sql_eq (Profile.student_id p) sid)) (profiles d)
       = false
    /\ d' = set_profiles d (profiles d ++ [Profile.mk id fn' em' sid dept now]).
Proof.
  unfold insert_profile. destruct fn as [fn'|]; [|discriminate].
  destruct em as [em'|]; [|discriminate].
  intros [Hpk H]%guard_bind_Ok. apply guard_bind_Ok in H as [Hsid H].
  pass_guards H. exists fn', em'.
  apply negb_true_iff in Hpk, Hsid. injection H as <-. done.
Qed.

Lemma create_user_Ok_full new rid now d d' :
  create_user new rid now d = Ok d' ->
  exists em,
    AuthUser.email new = Some em
    /\ existsb (fun u => bool_decide (AuthUser.id u = AuthUser.id new))
               (auth_users d) = false
    /\ existsb (fun p => bool_decide (Profile.id p = AuthUser.id new))
               (profiles d) = false
    /\ existsb (fun p => passes (sql_eq (Profile.student_id p)
                                   (AuthUser.raw_user_meta_data new !! "student_id")))
               (profiles d) = false
    /\ d' = Db (auth_users d ++ [new])
              (profiles d
                 ++ [Profile.mk (AuthUser.id new)
                       (coalesce (AuthUser.raw_user_meta_data new !! "full_name") "")
                       em
                       (AuthUser.raw_user_meta_data new !! "student_id")
                       (AuthUser.raw_user_meta_data new !! "department")
                       now])
              (user_roles d
                 ++ [UserRole.mk rid (AuthUser.id new) (assigned_role new)])
              (internships d) (applications d).
Proof.
  unfold create_user. intros [Hpk H]%guard_bind_Ok.
  apply negb_true_iff in Hpk. unfold handle_new_user in H.
  destruct (insert_profile _ _ _ _ _ _ _) as [d1|] eqn:Hprofile; [|discriminate].
  apply insert_profile_Ok_full in Hprofile
    as (fn & em & [= <-] & Hem & Hppk & Hsid & ->).
  exists em. split; [done|]. split; [done|]. split; [done|]. split; [done|].
  unfold assigned_role. cbn in H.
  destruct (passes _); apply insert_user_role_Ok in H; subst d'; reflexivity.
Qed.

Lemma update_internship_row_id s d id new i j :
  update_internship_row s d id new i = Ok j -> Internship.id j = Internship.id i.
Proof.
  unfold update_internship_row.
  destruct (internship_targets UPDATE s d id i); [|by intros [= <-]].
  intros H. pass_guards H. by injection H as <-.
Qed.

Lemma update_internship_Ok_ids s id new d d' :
  update_internship s id new d = Ok d' ->
  exists rows, d' = set_internships d rows
               /\ List.map Internship.id rows
                  = List.map Internship.id (internships d).
Proof.
  unfold update_internship.
  destruct (mapM _ _) as [rows|] eqn:Hrows; [|discriminate].
  cbn. intros [= <-]. exists rows. split; [done|].
  eapply mapM_Ok_keys; [|exact Hrows]. apply update_internship_row_id.
Qed.

Lemma update_application_Ok_rows s id status feedback now d d' :
  update_application s id status feedback now d = Ok d' ->
  exists rows,
    d' = set_applications d rows
    /\ Forall2 (fun a b => update_row s d id status feedback now a = Ok b)
               (applications d) rows.
Proof.
  unfold update_application.
  destruct (mapM _ _) as [rows|] eqn:Hrows; [|discriminate].
  cbn. intros [= <-]. exists rows. split; [done|].
  by apply mapM_Ok_Forall2.
Qed.

Lemma existsb_In_id {A} (key : A -> uuid) (id : uuid) (l : list A) :
  existsb (fun x => bool_decide (key x = id)) l = true
  <-> exists x, x ∈ l /\ key x = id.
Proof.
  rewrite existsb_exists. split; intros (x & Hx & Hk); exists x.
  - apply bool_decide_eq_true in Hk. by rewrite list_elem_of_In.
  - rewrite <- list_elem_of_In. by rewrite bool_decide_eq_true.
Qed.

(** ** Invariants of the reachable states *)

Lemma Forall2_in_r {A B} (R : A -> B -> Prop) (l : list A) (l' : list B) b :
  Forall2 R l l' -> b ∈ l' -> exists a, a ∈ l /\ R a b.
Proof.
  induction 1 as [|a b' l l' Hab _ IH]; intros Hb.
  - by apply elem_of_nil in Hb.
  - apply elem_of_cons in Hb as [-> | Hb].
    + exists a. split; [left | done].
    + destruct (IH Hb) as (a' & Ha' & HR). exists a'. split; [by right | done].
Qed.

Lemma Forall2_map_eq {A B C} (R : A -> B -> Prop) (f : A -> C) (g : B -> C)
    (l : list A) (l' : list B) :
  (forall a b, R a b -> g b = f a) ->
  Forall2 R l l' -> List.map g l' = List.map f l.
Proof.
  intros Hfg. induction 1 as [|a b l l' Hab _ IH]; cbn; [done|].
  by rewrite (Hfg a b Hab), IH.
Qed.

Lemma update_row_keeps s d id status feedback now a b :
  update_row s d id status feedback now a = Ok b ->
  Application.id b = Application.id a
  /\ Application.internship_id b = Application.internship_id a
  /\ Application.student_id b = Application.student_id a
  /\ Application.applied_at b = Application.applied_at a.
Proof.
  intros [-> | (_ & _ & _ & ->)]%update_row_Ok; done.
Qed.

Lemma elem_of_map_id {A} (key : A -> uuid) (l l' : list A) x :
  List.map key l' = List.map key l -> x ∈ l ->
  exists y, y ∈ l' /\ key y = key x.
Proof.
  intros Hmap Hx.
  assert (key x ∈ List.map key l') as Hk.
  { rewrite Hmap. apply list_elem_of_fmap. eauto. }
  apply list_elem_of_fmap in Hk as (y & Hy & Hin). eauto.
Qed.

Lemma reachable_references d : reachable d -> references_hold d.
Proof.
  induction 1 as [sample | d d' _ IH Hstep].
  - intros a Ha. by apply elem_of_nil in Ha.
  - destruct Hstep as [d new rid now d' Hc | d s a d' Hi
                      | d s id st fb now d' Hu | d s i d' Hi
                      | d s id new d' Hu | d s id d' Hd].
    + apply create_user_Ok in Hc as (_ & _ & p & _ & ->).
      intros a Ha. destruct (IH a Ha) as (Hposting & q & Hq & Hid).
      split; [exact Hposting|]. exists q. cbn. split; [|exact Hid].
      apply elem_of_app. by left.
    + apply insert_application_Ok_full in Hi
        as (_ & _ & _ & _ & Hposting & Hprofile & ->).
      intros b Hb. cbn in Hb. apply elem_of_app in Hb as [Hb | Hb].
      * exact (IH b Hb).
      * apply list_elem_of_singleton in Hb as ->. cbn.
        apply existsb_In_id in Hposting, Hprofile. done.
    + apply update_application_Ok_rows in Hu as (rows & -> & Hrows).
      intros b Hb. cbn in Hb.
      destruct (Forall2_in_r _ _ _ _ Hrows Hb) as (a & Ha & Hab).
      apply update_row_keeps in Hab as (_ & -> & -> & _).
      exact (IH a Ha).
    + apply insert_internship_Ok in Hi as ->.
      intros a Ha. destruct (IH a Ha) as ((j & Hj & Hid) & Hprofile).
      split; [|exact Hprofile]. exists j. cbn. split; [|exact Hid].
      apply elem_of_app. by left.
    + apply update_internship_Ok_ids in Hu as (rows & -> & Hids).
      intros a Ha. destruct (IH a Ha) as ((j & Hj & Hid) & Hprofile).
      split; [|exact Hprofile].
      destruct (elem_of_map_id Internship.id _ _ j Hids Hj) as (j' & Hj' & Hid').
      exists j'. cbn. split; [exact Hj' | congruence].
    + unfold delete_internship in Hd. injection Hd as <-.
      intros a Ha. cbn in Ha.
      apply list_elem_of_In, filter_In in Ha as [Ha Hkept].
      apply list_elem_of_In in Ha.
      destruct (IH a Ha) as ((j & Hj & Hid) & Hprofile).
      split; [|exact Hprofile]. exists j. cbn. split; [|exact Hid].
      apply list_elem_of_In, filter_In. split; [by apply list_elem_of_In|].
      apply negb_true_iff, not_true_is_false. intros Htarget.
      apply negb_true_iff in Hkept.
      assert (existsb
                (fun i => bool_decide (Internship.id i = Application.internship_id a))
                (List.filter (internship_targets DELETE s d id) (internships d))
              = true) as Hdeleted; [|congruence].
      apply existsb_In_id. exists j. split; [|exact Hid].
      apply list_elem_of_In, filter_In. split; [by apply list_elem_of_In|done].
Qed.

Lemma not_in_map_id {A} (key : A -> uuid) (id : uuid) (l : list A) :
  existsb (fun x => bool_decide (key x = id)) l = false ->
  id ∉ List.map key l.
Proof.
  intros Hfresh (x & -> & Hx)%list_elem_of_fmap.
  assert (existsb (fun y => bool_decide (key y = key x)) l = true) as Hex
    by (apply existsb_In_id; eauto).
  congruence.
Qed.

Lemma NoDup_snoc {A} (l : list A) (x : A) :
  NoDup l -> x ∉ l -> NoDup (l ++ [x]).
Proof.
  intros Hl Hx. apply NoDup_app. split; [exact Hl|]. split.
  - intros y Hy ->%list_elem_of_singleton. by apply Hx.
  - apply NoDup_singleton.
Qed.

Lemma student_id_not_taken (sid : option string) (l : list Profile.t) :
  existsb (fun p => passes (sql_eq (Profile.student_id p) sid)) l = false ->
  forall x, sid = Some x -> x ∉ omap Profile.student_id l.
Proof.
  intros Hfresh x -> Hx.
  apply list_elem_of_omap in Hx as (p & Hp & Hsid).
  assert (existsb (fun q => passes (sql_eq (Profile.student_id q) (Some x))) l
          = true) as Hex; [|congruence].
  apply existsb_exists. exists p. split; [by apply list_elem_of_In|].
  apply passes_sql_eq. eauto.
Qed.

Lemma reachable_keys d : reachable d -> keys_hold d.
Proof.
  induction 1 as [sample | d d' _ IH Hstep].
  - repeat split; try constructor. intros a Ha. by apply elem_of_nil in Ha.
  - destruct IH as (Hids & Hpids & Hsids & Hstatus).
    destruct Hstep as [d new rid now d' Hc | d s a d' Hi
                      | d s id st fb now d' Hu | d s i d' Hi
                      | d s id new d' Hu | d s id d' Hd].
    + apply create_user_Ok_full in Hc as (em & _ & _ & Hpid & Hsid & ->).
      split; [exact Hids|]. split; [|split; [|exact Hstatus]];
        cbn [profiles].
      * rewrite List.map_app. apply NoDup_snoc; [exact Hpids|].
        by apply not_in_map_id.
      * rewrite omap_app. cbn.
        destruct (AuthUser.raw_user_meta_data new !! "student_id") as [x|] eqn:Hx;
          cbn; [|by rewrite app_nil_r].
        apply NoDup_snoc; [exact Hsids|].
        by apply (student_id_not_taken (Some x)).
    + apply insert_application_Ok_full in Hi
        as (_ & Hpending & Hid & _ & _ & _ & ->).
      split; [|split; [exact Hpids|split; [exact Hsids|]]]; cbn [applications set_applications].
      * rewrite List.map_app. apply NoDup_snoc; [exact Hids|].
        by apply not_in_map_id.
      * intros b [Hb | ->%list_elem_of_singleton]%elem_of_app; [by apply Hstatus|].
        by rewrite Hpending.
    + apply update_application_Ok_rows in Hu as (rows & -> & Hrows).
      split; [|split; [exact Hpids|split; [exact Hsids|]]]; cbn [applications set_applications].
      * rewrite (Forall2_map_eq _ Application.id Application.id _ _
                   (fun a b Hab => proj1 (update_row_keeps _ _ _ _ _ _ _ _ Hab))
                   Hrows).
        exact Hids.
      * intros b Hb. destruct (Forall2_in_r _ _ _ _ Hrows Hb) as (a & Ha & Hab).
        apply update_row_Ok in Hab as [-> | (_ & _ & Hcheck & ->)];
          [by apply Hstatus | exact Hcheck].
    + apply insert_internship_Ok in Hi as ->. done.
    + apply update_internship_Ok in Hu as (rows & ->). done.
    + unfold delete_internship in Hd. injection Hd as <-.
      split; [|split; [exact Hpids|split; [exact Hsids|]]]; cbn [applications].
      * by apply NoDup_map_filter.
      * intros a Ha. apply list_elem_of_In, filter_In in Ha as [Ha _].
        apply Hstatus. by apply list_elem_of_In.
Qed.

(** ** Creating applications *)

Lemma applications_are_created_own_and_pending_aux (s : session)
    (a : Application.t) (d d' : db) :
  insert_application s a d = Ok d' <->
  auth_uid s = Some (Application.student_id a)
  /\ Application.status a = Some "pending"
  /\ (Application.id a ∉ List.map Application.id (applications d))
  /\ (Application.key a ∉ List.map Application.key (applications d))
  /\ (exists i, i ∈ internships d
                /\ Internship.id i = Application.internship_id a)
  /\ (exists p, p ∈ profiles d /\ Profile.id p = Application.student_id a)
  /\ d' = set_applications d (applications d ++ [a]).
Proof.
  split.
  - intros (Hown & Hpending & Hid & Hkey & Hposting & Hprofile & ->)
             %insert_application_Ok_full.
    apply existsb_In_id in Hposting, Hprofile.
    split; [done|]. split; [done|]. split; [by apply not_in_map_id|].
    split; [|done].
    intros Hin. apply key_taken in Hin. congruence.
  - intros (Hown & Hpending & Hid & Hkey & Hposting & Hprofile & ->).
    unfold insert_application.
    rewrite application_insert_allowed. unfold own_pending_application.
    rewrite Hown, Hpending. cbn [sql_eq]. rewrite !bool_decide_true by done.
    cbn [sql_and passes guard_or mbind result_bind status_check].
    rewrite bool_decide_true by left. cbn [guard_or].
    assert (existsb (fun b => bool_decide (Application.id b = Application.id a))
              (applications d) = false) as ->.
    { apply not_true_is_false. intros (b & Hb & Hq)%existsb_In_id.
      apply Hid. rewrite <- Hq. apply list_elem_of_fmap. eauto. }
    assert (existsb (fun b => bool_decide (Application.key b = Application.key a))
              (applications d) = false) as ->.
    { apply not_true_is_false. intros (b & Hb & Hq)%existsb_exists.
      apply bool_decide_eq_true in Hq.
      apply Hkey. rewrite <- Hq. apply list_elem_of_fmap.
      exists b. split; [done | by apply list_elem_of_In]. }
    cbn [negb guard_or].
    apply existsb_In_id in Hposting, Hprofile.
    by rewrite Hposting, Hprofile.
Qed.

(** X1: an insert into applications succeeds exactly when the caller is the
    student of the row, the status is pending, the id and the (posting,
    student) pair are new, and the posting and the student's profile exist;
    it then appends the row and changes nothing else.  Nobody, an admin
    included, creates an application for someone else or in another
    status. *)
Theorem applications_are_created_own_and_pending (s : session)
    (a : Application.t) (d d' : db) :
  insert_application s a d = Ok d' <->
  auth_uid s = Some (Application.student_id a)
  /\ Application.status a = Some "pending"
  /\ (Application.id a ∉ List.map Application.id (applications d))
  /\ (Application.key a ∉ List.map Application.key (applications d))
  /\ (exists i, i ∈ internships d
                /\ Internship.id i = Application.internship_id a)
  /\ (exists p, p ∈ profiles d /\ Profile.id p = Application.student_id a)
  /\ d' = set_applications d (applications d ++ [a]).
Proof. apply applications_are_created_own_and_pending_aux. Qed.

(** X2: [handleApply] asks for a posting that exists, not for one that is
    on the list: for a signed-in student with a profile, any posting,
    active or not, that the student has not applied to yet, the application
    is stored as pending, without feedback, and the success toast is
    shown. *)
Theorem apply_reaches_any_existing_posting (message : db_error -> string)
    (user : uuid) (internshipId : string) (new_id : uuid) (now : timestamptz)
    (page : StudentDashboard.t) (i : Internship.t) (p : Profile.t) :
  i ∈ internships (StudentDashboard.store page) ->
  Internship.id i = internshipId ->
  p ∈ profiles (StudentDashboard.store page) ->
  Profile.id p = user ->
  (internshipId, user)
    ∉ List.map Application.key (applications (StudentDashboard.store page)) ->
  new_id ∉ List.map Application.id (applications (StudentDashboard.store page)) ->
  handleApply message (Some user) internshipId new_id now page
  = StudentDashboard.mk
      (set_applications (StudentDashboard.store page)
         (applications (StudentDashboard.store page)
            ++ [Application.mk new_id internshipId user (Some "pending") None
                  now now]))
      (StudentDashboard.toasts page
         ++ [toast_success "Application submitted successfully!"])
      None.
Proof.
  intros Hi Hiid Hp Hpid Hkey Hid. unfold handleApply.
  assert (insert_application (session_of user)
            (Application.mk new_id internshipId user (Some "pending") None now now)
            (StudentDashboard.store page)
          = Ok (set_applications (StudentDashboard.store page)
                  (applications (StudentDashboard.store page)
                     ++ [Application.mk new_id internshipId user (Some "pending")
                           None now now]))) as ->; [|reflexivity].
  apply applications_are_created_own_and_pending_aux.
  cbn [Application.student_id Application.status Application.id
       Application.internship_id Application.key].
  unfold Application.key. cbn [Application.student_id Application.internship_id].
  repeat split; try done; eauto.
Qed.

(** The student of the run applies to the posting the admin took off the
    list, which the student cannot read. *)
Lemma apply_reaches_any_existing_posting_witness :
  ¬ can_read_internship Demo.the_student Demo.accepted (Demo.datastream false)
  /\ handleApply demo_message (Some "u-1") "i-2" "a-2" 5
       (StudentDashboard.mk Demo.accepted [] None)
     = StudentDashboard.mk
         (set_applications Demo.accepted
            (applications Demo.accepted
               ++ [Application.mk "a-2" "i-2" "u-1" (Some "pending") None 5 5]))
         [toast_success "Application submitted successfully!"]
         None.
Proof.
  split.
  - intros (_ & [[_ Hactive] | Hadmin])%can_read_internship_iff.
    + discriminate Hactive.
    + vm_compute in Hadmin. discriminate Hadmin.
  - apply (apply_reaches_any_existing_posting demo_message "u-1" "i-2" "a-2" 5
             (StudentDashboard.mk Demo.accepted [] None)
             (Demo.datastream false)
             (Profile.mk "u-1" "Asha Rao" "student@klu.edu" (Some "2400030001")
                (Some "Computer Science") 1)).
    + vm_compute. right. left.
    + reflexivity.
    + vm_compute. left.
    + reflexivity.
    + vm_compute. intros [[=] | []%elem_of_nil]%elem_of_cons.
    + vm_compute. intros [[=] | []%elem_of_nil]%elem_of_cons.
Defined.

(** ** Postings and the applications made to them *)

(** X7: in every reachable state each application refers to a posting and
    to a student profile that are in their tables: inserts check both
    references, updates keep the ids, and deleting a posting deletes the
    applications made to it. *)
Theorem applications_never_dangle (d : db) (a : Application.t) :
  reachable d ->
  a ∈ applications d ->
  (exists i, i ∈ internships d /\ Internship.id i = Application.internship_id a)
  /\ (exists p, p ∈ profiles d /\ Profile.id p = Application.student_id a).
Proof. intros Hreach Ha. by apply reachable_references. Qed.

Lemma applications_never_dangle_witness :
  (exists i, i ∈ internships Demo.accepted /\ Internship.id i = "i-1")
  /\ (exists p, p ∈ profiles Demo.accepted /\ Profile.id p = "u-1").
Proof.
  apply (applications_never_dangle Demo.accepted
           (Application.mk "a-1" "i-1" "u-1" (Some "accepted") (Some "Great fit")
              3 4)).
  - apply demo_accepted_reachable.
  - vm_compute. left.
Defined.

(** X6: in a reachable state, when a session holding the admin role deletes
    a posting, the postings with that id are gone, so are exactly the
    applications made to it, and nothing else changes. *)
Theorem deleting_a_posting_takes_its_applications (s : session) (d : db)
    (id : uuid) :
  reachable d ->
  has_role s d (auth_uid s) (Some admin) = true ->
  delete_internship s id d
  = Ok (Db (auth_users d) (profiles d) (user_roles d)
          (List.filter (fun i => negb (bool_decide (Internship.id i = id)))
                       (internships d))
          (List.filter
             (fun a => negb (bool_decide (Application.internship_id a = id)))
             (applications d))).
Proof.
  intros Hreach Hadmin. unfold delete_internship. f_equal.
  assert (forall j, internship_targets DELETE s d id j
                    = bool_decide (Internship.id j = id)) as Htargets
    by (intros j; by apply internship_targets_admin).
  f_equal.
  - apply List.filter_ext. intros j. by rewrite Htargets.
  - apply List.filter_ext_in. intros a Ha%list_elem_of_In. f_equal.
    rewrite (List.filter_ext _ _ Htargets).
    destruct (reachable_references d Hreach a Ha) as ((i & Hi & Hid) & _).
    case_bool_decide as Hsame.
    + apply existsb_In_id. exists i. split; [|exact Hid].
      apply list_elem_of_In, filter_In. split; [by apply list_elem_of_In|].
      apply bool_decide_eq_true. congruence.
    + apply not_true_is_false. intros (j & Hj & Hjid)%existsb_In_id.
      apply list_elem_of_In, filter_In in Hj as [_ Hj].
      apply bool_decide_eq_true in Hj. congruence.
Qed.

Lemma deleting_a_posting_takes_its_applications_witness :
  exists d',
    delete_internship Demo.the_admin "i-1" Demo.accepted = Ok d'
    /\ Internship.id <$> internships d' = ["i-2"]
    /\ applications d' = [].
Proof.
  eexists. split.
  - apply (deleting_a_posting_takes_its_applications Demo.the_admin
             Demo.accepted "i-1").
    + apply demo_accepted_reachable.
    + vm_compute. reflexivity.
  - split; vm_compute; reflexivity.
Defined.

(** ** Status updates that go another way *)

Lemma update_application_no_target s d id status feedback now :
  has_role s d (auth_uid s) (Some admin) = false
  \/ (forall a, a ∈ applications d -> Application.id a ≠ id) ->
  update_application s id status feedback now d = Ok d.
Proof.
  intros Hno. unfold update_application.
  rewrite (mapM_Ok_map _ (fun a => a)).
  - cbn. by rewrite map_id, set_applications_id.
  - intros a Ha. unfold update_row, update_targets.
    destruct Hno as [Hnot | Hmissing].
    + by rewrite application_update_visible, Hnot, andb_false_r.
    + by rewrite bool_decide_false by (by apply Hmissing).
Qed.

(** X11: [handleStatusUpdate] does not notice an update that changed no
    row.  When the caller does not hold the admin role, or no application
    has the id, the datastore stays as it was and reports no error, and the
    page goes on: it invokes the notification function, shows the toast of
    the outcome (the success toast when the call goes through) and clears
    the feedback entered for that id. *)
Theorem status_update_of_no_row_still_notifies
    (message : db_error -> string) (invoke : EmailRequest.t -> option string)
    (s : session) (now : timestamptz)
    (applicationId newStatus studentEmail : string) (page : AdminDashboard.t) :
  has_role s (AdminDashboard.store page) (auth_uid s) (Some admin) = false
  \/ (forall a, a ∈ applications (AdminDashboard.store page) ->
                Application.id a ≠ applicationId) ->
  handleStatusUpdate message invoke s now applicationId newStatus studentEmail page
  = AdminDashboard.mk (AdminDashboard.store page)
      (AdminDashboard.invocations page
         ++ [EmailRequest.mk studentEmail (js_string newStatus)
               (lookup_or_empty (AdminDashboard.feedback page) applicationId)])
      (AdminDashboard.toasts page
         ++ [match invoke (EmailRequest.mk studentEmail (js_string newStatus)
                             (lookup_or_empty (AdminDashboard.feedback page)
                                applicationId)) with
             | Some _ => toast_error "Status updated but email notification failed"
             | None => toast_success ("Application " +:+ newStatus
                                      +:+ " and email sent!")
             end])
      (<[applicationId := ""]> (AdminDashboard.feedback page))
      None.
Proof.
  intros Hno. unfold handleStatusUpdate.
  by rewrite update_application_no_target.
Qed.

(** The student of the run calls the handler on the application: nothing
    is stored, the mail goes out, the page reports success. *)
Lemma status_update_of_no_row_still_notifies_witness :
  handleStatusUpdate demo_message (fun _ => None) Demo.the_student 5 "a-1"
    "rejected" "student@klu.edu" (AdminDashboard.mk Demo.accepted [] [] ∅ None)
  = AdminDashboard.mk Demo.accepted
      [EmailRequest.mk "student@klu.edu" (js_string "rejected") ""]
      [toast_success "Application rejected and email sent!"]
      (<["a-1" := ""]> ∅) None.
Proof.
  rewrite (status_update_of_no_row_still_notifies demo_message (fun _ => None)
             Demo.the_student 5 "a-1" "rejected" "student@klu.edu"
             (AdminDashboard.mk Demo.accepted [] [] ∅ None))
    by (left; vm_compute; reflexivity).
  vm_compute. reflexivity.
Defined.

Lemma mapM_Err {A B} (f : A -> result B) (e : db_error) (l : list A) x :
  (forall a, a ∈ l -> (exists b, f a = Ok b) \/ f a = Err e) ->
  x ∈ l -> f x = Err e -> mapM f l = Err e.
Proof.
  intros Hall Hx Hfx. induction l as [|a l IH]; [by apply elem_of_nil in Hx|].
  cbn. destruct (Hall a) as [(b & Hb) | He]; [by left | | by rewrite He].
  rewrite Hb. cbn. apply elem_of_cons in Hx as [-> | Hx]; [congruence|].
  rewrite IH; [reflexivity | | exact Hx].
  intros a' Ha'. apply Hall. by right.
Qed.

(** X12: a status outside pending / accepted / rejected does not get past
    the CHECK.  When an admin's [handleStatusUpdate] carries one for an
    application that exists, the update fails, the datastore stays as it
    was, no notification is invoked, the feedback entered is kept, and the
    error toast shows the datastore's message, or the fallback text when
    that message is empty. *)
Theorem status_update_outside_the_enum_is_refused
    (message : db_error -> string) (invoke : EmailRequest.t -> option string)
    (s : session) (now : timestamptz)
    (applicationId newStatus studentEmail : string) (page : AdminDashboard.t)
    (a : Application.t) :
  has_role s (AdminDashboard.store page) (auth_uid s) (Some admin) = true ->
  a ∈ applications (AdminDashboard.store page) ->
  Application.id a = applicationId ->
  newStatus ∉ ["pending"; "accepted"; "rejected"] ->
  handleStatusUpdate message invoke s now applicationId newStatus studentEmail page
  = AdminDashboard.mk (AdminDashboard.store page)
      (AdminDashboard.invocations page)
      (AdminDashboard.toasts page
         ++ [toast_error
               (js_or (message (check_violation "applications_status_check"))
                  "Error updating application")])
      (AdminDashboard.feedback page)
      None.
Proof.
  intros Hadmin Ha Hid Hstatus. unfold handleStatusUpdate, update_application.
  rewrite (mapM_Err _ (check_violation "applications_status_check") _ a);
    [reflexivity | | exact Ha |].
  - intros b _. unfold update_row, update_targets.
    rewrite application_update_visible, !application_select_visible,
      application_update_allowed, Hadmin.
    rewrite !orb_true_r, !andb_true_r.
    case_bool_decide; [right | left; eauto].
    cbn. by rewrite bool_decide_false.
  - unfold update_row, update_targets.
    rewrite application_update_visible, !application_select_visible,
      application_update_allowed, Hadmin.
    rewrite !orb_true_r, !andb_true_r, bool_decide_true by done.
    cbn. by rewrite bool_decide_false.
Qed.

Lemma status_update_outside_the_enum_is_refused_witness :
  handleStatusUpdate demo_message (fun _ => None) Demo.the_admin 5 "a-1"
    "shortlisted" "student@klu.edu"
    (AdminDashboard.mk Demo.accepted [] [] {[ "a-1" := "On hold" ]} None)
  = AdminDashboard.mk Demo.accepted [] 
      [toast_error "new row violates check constraint applications_status_check"]
      {[ "a-1" := "On hold" ]} None.
Proof.
  rewrite (status_update_outside_the_enum_is_refused demo_message (fun _ => None)
             Demo.the_admin 5 "a-1" "shortlisted" "student@klu.edu"
             (AdminDashboard.mk Demo.accepted [] [] {[ "a-1" := "On hold" ]} None)
             (Application.mk "a-1" "i-1" "u-1" (Some "accepted") (Some "Great fit")
                3 4)).
  - vm_compute. reflexivity.
  - vm_compute. reflexivity.
  - vm_compute. left.
  - reflexivity.
  - intros Hin. repeat (apply elem_of_cons in Hin as [[=] | Hin]).
    by apply elem_of_nil in Hin.
Defined.

(** ** Ordered reads *)

Lemma elem_of_insert_desc {A} (key : A -> nat) (x y : A) (l : list A) :
  y ∈ insert_desc key x l <-> y = x \/ y ∈ l.
Proof.
  induction l as [|z l IH]; cbn [insert_desc].
  - rewrite list_elem_of_singleton, elem_of_nil. tauto.
  - destruct (Nat.ltb _ _).
    + rewrite !elem_of_cons, IH. tauto.
    + by rewrite !elem_of_cons.
Qed.

Lemma elem_of_order_desc {A} (key : A -> nat) (y : A) (l : list A) :
  y ∈ order_desc key l <-> y ∈ l.
Proof.
  induction l as [|x l IH]; [done|].
  unfold order_desc. cbn [fold_right]. fold (order_desc key l).
  by rewrite elem_of_insert_desc, elem_of_cons, IH.
Qed.

Lemma count_insert_desc {A} (key : A -> nat) (f : A -> bool) x (l : list A) :
  length (List.filter f (insert_desc key x l))
  = length (List.filter f (x :: l)).
Proof.
  induction l as [|z l IH]; cbn [insert_desc]; [done|].
  destruct (Nat.ltb _ _); [|done]. cbn [List.filter] in *.
  destruct (f z), (f x); cbn [length] in *; lia.
Qed.

Lemma count_order_desc {A} (key : A -> nat) (f : A -> bool) (l : list A) :
  length (List.filter f (order_desc key l)) = length (List.filter f l).
Proof.
  induction l as [|x l IH]; [done|].
  unfold order_desc. cbn [fold_right]. fold (order_desc key l).
  rewrite count_insert_desc. cbn [List.filter].
  destruct (f x); cbn [length]; by rewrite IH.
Qed.

Lemma length_order_desc {A} (key : A -> nat) (l : list A) :
  length (order_desc key l) = length l.
Proof.
  rewrite <- (filter_all (fun _ => true) (order_desc key l)) by done.
  rewrite count_order_desc. by rewrite filter_all.
Qed.

Lemma select_applications_admin s d :
  has_role s d (auth_uid s) (Some admin) = true ->
  select_applications s d = applications d.
Proof.
  intros Hadmin. unfold select_applications. apply filter_all.
  intros a. by rewrite application_select_visible, Hadmin, orb_true_r.
Qed.

(** ** One row at a time *)

Lemma updated_row_others id status feedback now (l : list Application.t) :
  id ∉ List.map Application.id l ->
  List.map (updated_row id status feedback now) l = l.
Proof.
  induction l as [|a l IH]; cbn; [done|].
  intros Hnot. unfold updated_row at 1.
  rewrite bool_decide_false by (intros Heq; apply Hnot; rewrite <- Heq; left).
  rewrite IH; [done|]. intros Hin. apply Hnot. by right.
Qed.

Lemma update_application_one_row (s : session) (d : db) (id : uuid)
    (status feedback : option string) (now : timestamptz)
    (before after : list Application.t) (a : Application.t) :
  reachable d ->
  has_role s d (auth_uid s) (Some admin) = true ->
  status_check status = true ->
  applications d = before ++ a :: after ->
  Application.id a = id ->
  update_application s id status feedback now d
  = Ok (set_applications d
          (before
             ++ Application.mk id (Application.internship_id a)
                  (Application.student_id a) status feedback
                  (Application.applied_at a) now
             :: after)).
Proof.
  intros Hreach Hadmin Hcheck Hsplit Hid.
  rewrite update_application_admin by done. do 2 f_equal.
  destruct (reachable_keys d Hreach) as (Hids & _).
  rewrite Hsplit in Hids |- *. rewrite List.map_app in Hids |- *. cbn in Hids |- *.
  apply NoDup_app in Hids as (_ & Hbefore & Hafter%NoDup_cons).
  destruct Hafter as [Hafter _].
  rewrite !updated_row_others.
  - unfold updated_row. rewrite bool_decide_true by done. by rewrite <- Hid.
  - by rewrite <- Hid.
  - intros Hin. apply (Hbefore _ Hin). rewrite Hid. left.
Qed.

(** X13: in a reachable state an admin's status update rewrites one row
    and no other: the application with the id gets the new status, the new
    feedback and the time of the update, its posting, student and time of
    application stay, and every other application stays as it was, in
    place. *)
Theorem status_update_rewrites_one_row (s : session) (d : db) (id : uuid)
    (status feedback : option string) (now : timestamptz)
    (before after : list Application.t) (a : Application.t) :
  reachable d ->
  has_role s d (auth_uid s) (Some admin) = true ->
  status_check status = true ->
  applications d = before ++ a :: after ->
  Application.id a = id ->
  update_application s id status feedback now d
  = Ok (set_applications d
          (before
             ++ Application.mk id (Application.internship_id a)
                  (Application.student_id a) status feedback
                  (Application.applied_at a) now
             :: after)).
Proof. apply update_application_one_row. Qed.

Lemma status_update_rewrites_one_row_witness :
  exists d',
    update_application Demo.the_admin "a-1" (Some "rejected") None 7 Demo.accepted
    = Ok d'
    /\ applications d'
       = [Application.mk "a-1" "i-1" "u-1" (Some "rejected") None 3 7].
Proof.
  eexists. split.
  - apply (status_update_rewrites_one_row Demo.the_admin Demo.accepted "a-1"
             (Some "rejected") None 7 [] []
             (Application.mk "a-1" "i-1" "u-1" (Some "accepted")
                (Some "Great fit") 3 4)).
    + apply demo_accepted_reachable.
    + vm_compute. reflexivity.
    + reflexivity.
    + vm_compute. reflexivity.
    + reflexivity.
  - reflexivity.
Defined.

(** ** The counters of the admin dashboard *)

Lemma count_status_partition (data : list Application.t) :
  (forall a, a ∈ data -> status_check (Application.status a) = true) ->
  length data
  = count_status "pending" data + count_status "accepted" data
    + count_status "rejected" data
    + length (List.filter (fun a => bool_decide (Application.status a = None))
                          data).
Proof.
  unfold count_status. induction data as [|a data IH]; intros Hcheck; [done|].
  cbn [List.filter length].
  specialize (IH (fun b Hb => Hcheck b (list_elem_of_further _ _ _ Hb))).
  pose proof (Hcheck a (list_elem_of_here _ _)) as Ha.
  destruct (Application.status a) as [st|]; cbn in Ha.
  - apply bool_decide_eq_true in Ha.
    repeat (apply elem_of_cons in Ha as [-> | Ha]);
      [| | |by apply elem_of_nil in Ha];
      repeat case_bool_decide; try done; cbn [length]; lia.
  - repeat case_bool_decide; try done; cbn [length]; lia.
Qed.

(** X14: in a reachable state the counters [fetchApplications] derives add
    up: the total is the pending, accepted and rejected counts plus the
    number of fetched rows whose status is NULL, the one other value the
    CHECK lets in; for a session holding the admin role the total is the
    number of applications in the table. *)
Theorem dashboard_counters_add_up (s : session) (d : db) :
  reachable d ->
  Stats.total (calculate_stats (fetchApplications s d))
  = Stats.pending (calculate_stats (fetchApplications s d))
    + Stats.accepted (calculate_stats (fetchApplications s d))
    + Stats.rejected (calculate_stats (fetchApplications s d))
    + length (List.filter (fun a => bool_decide (Application.status a = None))
                          (fetchApplications s d))
  /\ (has_role s d (auth_uid s) (Some admin) = true ->
      Stats.total (calculate_stats (fetchApplications s d))
      = length (applications d)).
Proof.
  intros Hreach. split.
  - cbn [calculate_stats Stats.total Stats.pending Stats.accepted Stats.rejected].
    apply count_status_partition. intros a Ha.
    apply elem_of_order_desc in Ha.
    apply list_elem_of_In, filter_In in Ha as [Ha _].
    destruct (reachable_keys d Hreach) as (_ & _ & _ & Hstatus).
    apply Hstatus. by apply list_elem_of_In.
  - intros Hadmin. cbn [calculate_stats Stats.total]. unfold fetchApplications.
    by rewrite length_order_desc, select_applications_admin.
Qed.

Lemma dashboard_counters_add_up_witness :
  calculate_stats (fetchApplications Demo.the_admin Demo.accepted)
  = Stats.mk 1 0 1 0
  /\ Stats.total (calculate_stats (fetchApplications Demo.the_admin Demo.accepted))
     = length (applications Demo.accepted).
Proof.
  split; [vm_compute; reflexivity|].
  apply (dashboard_counters_add_up Demo.the_admin Demo.accepted).
  - apply demo_accepted_reachable.
  - vm_compute. reflexivity.
Defined.

Lemma count_status_app text (l l' : list Application.t) :
  count_status text (l ++ l') = count_status text l + count_status text l'.
Proof. unfold count_status. by rewrite List.filter_app, length_app. Qed.

Lemma count_status_cons text a (l : list Application.t) :
  count_status text (a :: l)
  = (if bool_decide (Application.status a = Some text) then 1 else 0)
    + count_status text l.
Proof. unfold count_status. cbn. by case_bool_decide. Qed.

Lemma fetchApplications_admin_count text s d :
  has_role s d (auth_uid s) (Some admin) = true ->
  count_status text (fetchApplications s d) = count_status text (applications d).
Proof.
  intros Hadmin. unfold fetchApplications, count_status.
  by rewrite count_order_desc, select_applications_admin.
Qed.

(** X15: when an admin accepts or rejects a pending application in a
    reachable state, the counters the dashboard derives next move by one:
    the total stays, pending loses one, the counter of the new status gains
    one, and the counter of any other status stays. *)
Theorem deciding_moves_one_counter
    (message : db_error -> string) (invoke : EmailRequest.t -> option string)
    (s : session) (now : timestamptz)
    (applicationId newStatus studentEmail : string) (page : AdminDashboard.t)
    (before after : list Application.t) (a : Application.t) :
  reachable (AdminDashboard.store page) ->
  has_role s (AdminDashboard.store page) (auth_uid s) (Some admin) = true ->
  newStatus ∈ ["accepted"; "rejected"] ->
  applications (AdminDashboard.store page) = before ++ a :: after ->
  Application.id a = applicationId ->
  Application.status a = Some "pending" ->
  Stats.total
    (calculate_stats
       (fetchApplications s
          (AdminDashboard.store
             (handleStatusUpdate message invoke s now applicationId newStatus
                studentEmail page))))
  = Stats.total (calculate_stats (fetchApplications s (AdminDashboard.store page)))
  /\ S (count_status "pending"
          (fetchApplications s
             (AdminDashboard.store
                (handleStatusUpdate message invoke s now applicationId newStatus
                   studentEmail page))))
     = count_status "pending" (fetchApplications s (AdminDashboard.store page))
  /\ count_status newStatus
       (fetchApplications s
          (AdminDashboard.store
             (handleStatusUpdate message invoke s now applicationId newStatus
                studentEmail page)))
     = S (count_status newStatus
            (fetchApplications s (AdminDashboard.store page)))
  /\ (forall text, text ≠ "pending" -> text ≠ newStatus ->
      count_status text
        (fetchApplications s
           (AdminDashboard.store
              (handleStatusUpdate message invoke s now applicationId newStatus
                 studentEmail page)))
      = count_status text (fetchApplications s (AdminDashboard.store page))).
Proof.
  intros Hreach Hadmin Hstatus Hsplit Hid Hpending.
  assert (newStatus ≠ "pending") as Hnew.
  { intros ->. repeat (apply elem_of_cons in Hstatus as [[=] | Hstatus]).
    by apply elem_of_nil in Hstatus. }
  rewrite handleStatusUpdate_admin by done. cbn [AdminDashboard.store].
  set (fb := lookup_or_null (AdminDashboard.feedback page) applicationId).
  pose proof (update_application_admin s (AdminDashboard.store page)
                applicationId (Some newStatus) fb now Hadmin
                (accept_or_reject_passes_check newStatus Hstatus)) as Hmap.
  rewrite (update_application_one_row s (AdminDashboard.store page)
             applicationId (Some newStatus) fb now before after a Hreach Hadmin
             (accept_or_reject_passes_check newStatus Hstatus) Hsplit Hid)
    in Hmap.
  injection Hmap as <-.
  assert (forall text,
    count_status text
      (fetchApplications s
         (set_applications (AdminDashboard.store page)
            (before
               ++ Application.mk applicationId (Application.internship_id a)
                    (Application.student_id a) (Some newStatus) fb
                    (Application.applied_at a) now
               :: after)))
    + (if bool_decide (text = "pending") then 1 else 0)
    = count_status text (fetchApplications s (AdminDashboard.store page))
      + (if bool_decide (text = newStatus) then 1 else 0)) as Hcount.
  { intros text. rewrite !fetchApplications_admin_count by done.
    cbn [applications set_applications]. rewrite Hsplit.
    rewrite !count_status_app, !count_status_cons.
    cbn [Application.status]. rewrite Hpending.
    repeat case_bool_decide; simplify_eq; lia. }
  split; [|split; [|split]].
  - cbn [calculate_stats Stats.total]. unfold fetchApplications.
    rewrite !length_order_desc, !select_applications_admin by done.
    cbn [applications set_applications]. rewrite Hsplit.
    rewrite !length_app. reflexivity.
  - specialize (Hcount "pending").
    rewrite bool_decide_true in Hcount by done.
    rewrite bool_decide_false in Hcount by done. lia.
  - specialize (Hcount newStatus).
    rewrite bool_decide_false in Hcount by done.
    rewrite bool_decide_true in Hcount by done. lia.
  - intros text Hp Hn. specialize (Hcount text).
    rewrite !bool_decide_false in Hcount by done. lia.
Qed.

Lemma deciding_moves_one_counter_witness :
  calculate_stats (fetchApplications Demo.the_admin Demo.applied)
  = Stats.mk 1 1 0 0
  /\ count_status "accepted"
       (fetchApplications Demo.the_admin
          (AdminDashboard.store
             (handleStatusUpdate demo_message (fun _ => None) Demo.the_admin 4
                "a-1" "accepted" "student@klu.edu"
                (AdminDashboard.mk Demo.applied [] [] ∅ None))))
     = 1.
Proof.
  split; [vm_compute; reflexivity|].
  destruct (deciding_moves_one_counter demo_message (fun _ => None)
              Demo.the_admin 4 "a-1" "accepted" "student@klu.edu"
              (AdminDashboard.mk Demo.applied [] [] ∅ None)
              [] [] Demo.first_application)
    as (_ & _ & Haccepted & _).
  - apply demo_applied_reachable.
  - vm_compute. reflexivity.
  - left.
  - vm_compute. reflexivity.
  - reflexivity.
  - reflexivity.
  - rewrite Haccepted. vm_compute. reflexivity.
Defined.

(** ** The student dashboard *)

Lemma own_application_visible user d a :
  Application.student_id a = user ->
  row_visible SELECT applications_policies (session_of user) d a = true.
Proof.
  intros <-. rewrite application_select_visible. cbn [session_of auth_uid sql_eq].
  by rewrite bool_decide_true.
Qed.

Lemma hasApplied_iff user d internshipId :
  hasApplied (fetch_own_applications user d) internshipId = true
  <-> (internshipId, user) ∈ List.map Application.key (applications d).
Proof.
  unfold hasApplied, fetch_own_applications, select_applications.
  rewrite existsb_exists. split.
  - intros (a & Ha & Hposting).
    apply list_elem_of_In, elem_of_order_desc in Ha.
    apply list_elem_of_In, filter_In in Ha as [Ha Hstudent].
    apply filter_In in Ha as [Ha _].
    apply bool_decide_eq_true in Hposting, Hstudent.
    apply list_elem_of_fmap. exists a.
    split; [by rewrite <- Hposting, <- Hstudent | by apply list_elem_of_In].
  - intros (a & [= Hposting Hstudent] & Ha)%list_elem_of_fmap.
    exists a. split; [|by apply bool_decide_eq_true].
    apply list_elem_of_In, elem_of_order_desc.
    apply list_elem_of_In, filter_In. split; [|by apply bool_decide_eq_true].
    apply filter_In. split; [by apply list_elem_of_In|].
    by apply own_application_visible.
Qed.

(** X18: the Apply button of a posting is disabled as Already Applied
    exactly when the applications table holds a row of the signed-in
    student for that posting, whatever its status; an application that
    [handleApply] gets stored is found by the next fetch, so the button of
    its posting is disabled from then on. *)
Theorem apply_button_follows_the_table (message : db_error -> string)
    (user : uuid) (internshipId : string) (new_id : uuid) (now : timestamptz)
    (page : StudentDashboard.t) :
  (hasApplied (fetch_own_applications user (StudentDashboard.store page))
     internshipId = true
   <-> (internshipId, user)
         ∈ List.map Application.key (applications (StudentDashboard.store page)))
  /\ (StudentDashboard.store
        (handleApply message (Some user) internshipId new_id now page)
      ≠ StudentDashboard.store page ->
      hasApplied
        (fetch_own_applications user
           (StudentDashboard.store
              (handleApply message (Some user) internshipId new_id now page)))
        internshipId = true).
Proof.
  split; [apply hasApplied_iff|].
  unfold handleApply.
  destruct (insert_application _ _ _) as [d'|e] eqn:Hinsert;
    cbn [StudentDashboard.store]; [|done].
  intros _. apply hasApplied_iff.
  apply insert_application_Ok in Hinsert as [_ ->].
  cbn [applications set_applications]. rewrite List.map_app.
  apply elem_of_app. right. left.
Qed.

Lemma apply_button_follows_the_table_witness :
  hasApplied (fetch_own_applications "u-1" Demo.delisted) "i-1" = false
  /\ hasApplied (fetch_own_applications "u-1" Demo.applied) "i-1" = true.
Proof.
  split; [vm_compute; reflexivity|].
  destruct (apply_button_follows_the_table demo_message "u-1" "i-1" "a-1" 3
              (StudentDashboard.mk Demo.applied [] None)) as [Hfound _].
  apply Hfound. vm_compute. left.
Defined.

(** X19: the postings list of the student dashboard holds a posting
    exactly when the posting is active and the session is authenticated or
    holds the admin role: a posting taken off the list is not shown there
    to anybody, an admin included. *)
Theorem dashboard_lists_active_postings_only (s : session) (d : db)
    (i : Internship.t) :
  i ∈ fetch_internships s d <->
  i ∈ internships d
  /\ Internship.is_active i = Some true
  /\ (auth_role s = "authenticated"
      \/ has_role s d (auth_uid s) (Some admin) = true).
Proof.
  unfold fetch_internships.
  rewrite elem_of_order_desc, list_elem_of_In, filter_In, <- list_elem_of_In.
  fold (can_read_internship s d i). rewrite can_read_internship_iff.
  rewrite passes_sql_eq. split.
  - intros ((Hin & Hwho) & (b & Hactive & [= <-])). tauto.
  - intros (Hin & Hactive & Hwho). split; [|eauto]. split; [exact Hin|]. tauto.
Qed.

(** X20: what a card of an application shows, in a reachable state.  The
    badge is Accepted or Rejected exactly for those two statuses and
    Pending otherwise; the accept / reject controls are there exactly for
    the status pending.  The two disagree on one kind of row only, the one
    whose status is NULL: it wears the Pending badge, has no controls, and
    is not counted as pending. *)
Theorem badge_and_controls_of_a_card (d : db) (a : Application.t) :
  reachable d ->
  a ∈ applications d ->
  (getStatusBadge (Application.status a) = badge_accepted
   <-> Application.status a = Some "accepted")
  /\ (getStatusBadge (Application.status a) = badge_rejected
      <-> Application.status a = Some "rejected")
  /\ (getStatusBadge (Application.status a) = badge_pending
      <-> Application.status a = Some "pending" \/ Application.status a = None)
  /\ (status_controls_rendered a = true
      <-> Application.status a = Some "pending")
  /\ (Application.status a = None ->
      getStatusBadge (Application.status a) = badge_pending
      /\ status_controls_rendered a = false
      /\ count_status "pending" [a] = 0).
Proof.
  intros Hreach Ha.
  destruct (reachable_keys d Hreach) as (_ & _ & _ & Hstatus).
  specialize (Hstatus a Ha). unfold status_controls_rendered, count_status.
  cbn [List.filter]. destruct (Application.status a) as [st|].
  - cbn in Hstatus. apply bool_decide_eq_true in Hstatus.
    repeat (apply elem_of_cons in Hstatus as [-> | Hstatus]);
      [| | |by apply elem_of_nil in Hstatus];
      cbn [getStatusBadge]; rewrite ?bool_decide_eq_true;
      repeat split; try done; try discriminate; auto;
      by intros [? | ?].
  - cbn [getStatusBadge]. rewrite bool_decide_eq_true.
    repeat split; try done; auto.
Qed.

Lemma badge_and_controls_of_a_card_witness :
  getStatusBadge (Some "accepted") = badge_accepted
  /\ status_controls_rendered
       (Application.mk "a-1" "i-1" "u-1" (Some "accepted") (Some "Great fit") 3 4)
     = false.
Proof.
  destruct (badge_and_controls_of_a_card Demo.accepted
              (Application.mk "a-1" "i-1" "u-1" (Some "accepted")
                 (Some "Great fit") 3 4))
    as (Hbadge & _ & _ & Hcontrols & _).
  - apply demo_accepted_reachable.
  - vm_compute. left.
  - split; [by apply Hbadge|].
    apply not_true_is_false. intros Hshown%Hcontrols. discriminate.
Defined.

(** ** Sign-up, from the form to the rows *)

Lemma signup_metadata_lookups userType form :
  signup_metadata userType form !! "full_name" = Some (Auth.su_fullName form)
  /\ signup_metadata userType form !! "student_id"
     = (if bool_decide (userType = student)
        then Some (Auth.su_studentId form) else None)
  /\ signup_metadata userType form !! "department"
     = (if bool_decide (userType = student)
        then Some (Auth.su_department form) else None).
Proof.
  unfold signup_metadata. cbn [signup_data].
  destruct userType; cbn [bool_decide decide_rel app_role_eq_dec];
    repeat split;
    repeat (rewrite lookup_insert_eq || rewrite lookup_insert_ne by done);
    done.
Qed.

Lemma assigned_role_signup id email userType form :
  assigned_role (AuthUser.mk id email (signup_metadata userType form)) = userType.
Proof.
  unfold assigned_role. cbn [AuthUser.raw_user_meta_data].
  rewrite signup_requests_selected_role. by destruct userType.
Qed.

Lemma has_role_snoc s d rows row uid r :
  user_roles d = rows ++ [row] ->
  has_role s d uid (Some r)
  = has_role_body rows uid (Some r)
    || passes (sql_and (sql_eq (Some (UserRole.user_id row)) uid)
                       (sql_eq (Some (UserRole.role row)) (Some r))).
Proof.
  intros Hrows. unfold has_role, has_role_with, user_roles_read_as, has_role_body.
  rewrite Hrows, existsb_app. cbn. by rewrite orb_false_r.
Qed.

Lemma no_role_rows_before d id r :
  paired d -> count_users d id = 0 ->
  has_role_body (user_roles d) (Some id) r = false.
Proof.
  intros Hpaired Hzero. destruct (Hpaired id) as (_ & Hroles & _).
  rewrite Hzero in Hroles. apply count_zero_existsb in Hroles.
  apply not_true_is_false. intros (row & Hrow & [= Hid] & _)%has_role_body_true.
  assert (existsb (fun x => bool_decide (UserRole.user_id x = id)) (user_roles d)
          = true) as Hex; [|congruence].
  apply existsb_In_id. eauto.
Qed.

(** X9: the mode picked on the sign-up page decides the role.  When the
    principal of a sign-up made in a mode is created, in a reachable
    state, the new principal holds the role of that mode and no other: a
    sign-up in admin mode makes an admin. *)
Theorem sign_up_mode_decides_the_role (s : session) (d d' : db)
    (id : uuid) (email : option string) (userType : app_role)
    (form : Auth.signup_form) (rid : uuid) (now : timestamptz) (r : app_role) :
  reachable d ->
  create_user (AuthUser.mk id email (signup_metadata userType form)) rid now d
    = Ok d' ->
  has_role s d' (Some id) (Some r) = bool_decide (r = userType).
Proof.
  intros Hreach Hcreate.
  pose proof (reachable_paired d Hreach) as Hpaired.
  apply create_user_Ok_full in Hcreate as (em & _ & Hnew & _ & _ & ->).
  cbn [AuthUser.id] in *.
  rewrite (has_role_snoc s _ (user_roles d)
             (UserRole.mk rid id
                (assigned_role (AuthUser.mk id email (signup_metadata userType form)))))
    by reflexivity.
  rewrite no_role_rows_before;
    [|exact Hpaired | unfold count_users; by rewrite existsb_false_filter].
  rewrite assigned_role_signup. cbn [UserRole.user_id UserRole.role sql_eq orb].
  rewrite bool_decide_true by done. cbn [sql_and].
  destruct userType, r; reflexivity.
Qed.

Lemma sign_up_mode_decides_the_role_witness :
  has_role Demo.stranger Demo.staffed (Some "u-2") (Some admin) = true
  /\ has_role Demo.stranger Demo.staffed (Some "u-2") (Some student) = false.
Proof.
  assert (create_user
            (AuthUser.mk "u-2" (Some "admin@klu.edu")
               (signup_metadata admin Demo.admin_form))
            "r-2" 2 Demo.enrolled = Ok Demo.staffed) as Hcreated
    by (vm_compute; reflexivity).
  split.
  - apply (sign_up_mode_decides_the_role Demo.stranger Demo.enrolled Demo.staffed
             "u-2" (Some "admin@klu.edu") admin Demo.admin_form "r-2" 2 admin
             demo_enrolled_reachable Hcreated).
  - apply (sign_up_mode_decides_the_role Demo.stranger Demo.enrolled Demo.staffed
             "u-2" (Some "admin@klu.edu") admin Demo.admin_form "r-2" 2 student
             demo_enrolled_reachable Hcreated).
Defined.

(** X22: what was typed on the sign-up form comes back as the profile.
    After the principal of a sign-up is created, in a reachable state, the
    one profile the new user reads is made of the name as typed, the email
    of the principal, and, in student mode, the student id and department
    as typed (empty strings included), both NULL in admin mode. *)
Theorem sign_up_form_becomes_the_profile (d d' : db) (id : uuid)
    (email : string) (userType : app_role) (form : Auth.signup_form)
    (rid : uuid) (now : timestamptz) :
  reachable d ->
  create_user (AuthUser.mk id (Some email) (signup_metadata userType form))
    rid now d = Ok d' ->
  select_profiles (session_of id) d'
  = [Profile.mk id (Auth.su_fullName form) email
       (if bool_decide (userType = student)
        then Some (Auth.su_studentId form) else None)
       (if bool_decide (userType = student)
        then Some (Auth.su_department form) else None)
       now].
Proof.
  intros Hreach Hcreate.
  apply create_user_Ok_full in Hcreate as (em & [= <-] & _ & Hfresh & _ & ->).
  cbn [AuthUser.id AuthUser.raw_user_meta_data] in *.
  destruct (signup_metadata_lookups userType form) as (-> & -> & ->).
  unfold select_profiles. cbn [profiles]. rewrite List.filter_app.
  rewrite (List.filter_ext _ (fun p => bool_decide (Profile.id p = id))).
  - rewrite (existsb_false_filter _ _ Hfresh).
    cbn [List.filter app]. rewrite profile_select_visible.
    cbn [session_of auth_uid Profile.id sql_eq coalesce].
    by rewrite bool_decide_true.
  - intros p. rewrite profile_select_visible.
    cbn [session_of auth_uid sql_eq passes].
    repeat case_bool_decide; congruence.
Qed.

Lemma sign_up_form_becomes_the_profile_witness :
  select_profiles (session_of "u-3") Walkin.after_ravi
  = [Profile.mk "u-3" "Ravi Teja" "ravi@klu.edu" (Some "") (Some "") 6].
Proof.
  apply (sign_up_form_becomes_the_profile Demo.accepted Walkin.after_ravi "u-3"
           "ravi@klu.edu" student
           (Auth.mk_signup_form "ravi@klu.edu" "secret1" "Ravi Teja" "" "")
           "r-3" 6).
  - apply demo_accepted_reachable.
  - vm_compute. reflexivity.
Defined.

(** X8: student ids do not repeat, and an empty one is an id like any
    other.  In every reachable state no two profiles share a student id;
    the sign-up page sends the student id field as typed in student mode
    and none in admin mode; and creating a principal whose metadata carry
    a student id some profile already has fails and creates nothing.  So
    once one student has signed up leaving the field empty, no other
    student can. *)
Theorem student_ids_do_not_repeat (d : db) (new : AuthUser.t) (rid : uuid)
    (now : timestamptz) (p : Profile.t) (taken : string)
    (userType : app_role) (form : Auth.signup_form) :
  reachable d ->
  p ∈ profiles d ->
  Profile.student_id p = Some taken ->
  AuthUser.raw_user_meta_data new !! "student_id" = Some taken ->
  NoDup (omap Profile.student_id (profiles d))
  /\ signup_metadata userType form !! "student_id"
     = (if bool_decide (userType = student)
        then Some (Auth.su_studentId form) else None)
  /\ (exists e, create_user new rid now d = Err e)
  /\ commit d (create_user new rid now d) = d.
Proof.
  intros Hreach Hp Htaken Hmeta.
  split; [by destruct (reachable_keys d Hreach) as (_ & _ & ? & _)|].
  split; [by destruct (signup_metadata_lookups userType form) as (_ & ? & _)|].
  destruct (create_user new rid now d) as [d'|e] eqn:Hcreate.
  - apply create_user_Ok_full in Hcreate as (_ & _ & _ & _ & Hfresh & _).
    rewrite Hmeta in Hfresh.
    assert (existsb (fun q => passes (sql_eq (Profile.student_id q) (Some taken)))
              (profiles d) = true) as Hex; [|congruence].
    apply existsb_exists. exists p. split; [by apply list_elem_of_In|].
    apply passes_sql_eq. eauto.
  - split; [eauto | reflexivity].
Qed.

Lemma student_ids_do_not_repeat_witness :
  create_user Walkin.meena "r-4" 7 Walkin.after_ravi
  = Err (unique_violation "profiles_student_id_key")
  /\ exists e, create_user Walkin.meena "r-4" 7 Walkin.after_ravi = Err e.
Proof.
  split; [vm_compute; reflexivity|].
  apply (student_ids_do_not_repeat Walkin.after_ravi Walkin.meena "r-4" 7
           (Profile.mk "u-3" "Ravi Teja" "ravi@klu.edu" (Some "") (Some "") 6)
           "" student Demo.student_form).
  - apply (reachable_step Demo.accepted); [apply demo_accepted_reachable|].
    apply (step_create_user _ Walkin.ravi "r-3" 6). vm_compute. reflexivity.
  - vm_compute. right. right. left.
  - reflexivity.
  - vm_compute. reflexivity.
Defined.

(** ** One role each *)

Lemma filter_length_one {A} (l : list A) : length l = 1 -> exists x, l = [x].
Proof. destruct l as [|x [|y l]]; try discriminate. eauto. Qed.

Lemma existsb_pointwise {A} (f g : A -> bool) (l : list A) :
  (forall x, f x = g x) -> existsb f l = existsb g l.
Proof.
  intros Hfg. induction l as [|x l IH]; cbn; [done|]. by rewrite Hfg, IH.
Qed.

Lemma existsb_filter_and {A} (g h : A -> bool) (l : list A) :
  existsb (fun x => g x && h x) l = existsb h (List.filter g l).
Proof.
  induction l as [|x l IH]; cbn; [done|].
  destruct (g x); cbn; by rewrite IH.
Qed.

Lemma the_role_row d u :
  reachable d ->
  (exists x, x ∈ auth_users d /\ AuthUser.id x = u) ->
  exists row,
    List.filter (fun r => bool_decide (UserRole.user_id r = u)) (user_roles d)
    = [row].
Proof.
  intros Hreach Hu.
  destruct (reachable_paired d Hreach u) as (_ & Hroles & Hle).
  assert (count_users d u ≠ 0) as Hpos.
  { intros Hzero. apply count_zero_existsb in Hzero.
    apply existsb_In_id in Hu. congruence. }
  apply filter_length_one. unfold count_roles in Hroles. lia.
Qed.

Lemma has_role_by_row s d u row r :
  List.filter (fun x => bool_decide (UserRole.user_id x = u)) (user_roles d)
  = [row] ->
  has_role s d (Some u) (Some r) = bool_decide (UserRole.role row = r).
Proof.
  intros Hrow. unfold has_role, has_role_with, user_roles_read_as, has_role_body.
  rewrite (existsb_pointwise _ (fun x => bool_decide (UserRole.user_id x = u)
                                   && bool_decide (UserRole.role x = r))).
  - rewrite existsb_filter_and, Hrow. cbn. by rewrite orb_false_r.
  - intros x. rewrite passes_sql_and. cbn [sql_eq]. by rewrite !passes_Some.
Qed.

(** X23: in every reachable state a principal holds exactly one role:
    there is one role for which [has_role] answers true, and it answers
    false for the other. *)
Theorem every_principal_holds_one_role (s : session) (d : db)
    (x : AuthUser.t) :
  reachable d ->
  x ∈ auth_users d ->
  exists r, forall r',
    has_role s d (Some (AuthUser.id x)) (Some r') = bool_decide (r' = r).
Proof.
  intros Hreach Hx.
  destruct (the_role_row d (AuthUser.id x) Hreach) as (row & Hrow); [eauto|].
  exists (UserRole.role row). intros r'.
  rewrite (has_role_by_row s d _ row r' Hrow).
  repeat case_bool_decide; congruence.
Qed.

Lemma every_principal_holds_one_role_witness :
  exists r, forall r',
    has_role Demo.stranger Demo.accepted (Some "u-1") (Some r')
    = bool_decide (r' = r).
Proof.
  apply (every_principal_holds_one_role Demo.stranger Demo.accepted
           Demo.student_user).
  - apply demo_accepted_reachable.
  - vm_compute. left.
Defined.

Lemma filter_filter_implied {A} (g g' : A -> bool) (l : list A) :
  (forall x, g x = true -> g' x = true) ->
  List.filter g (List.filter g' l) = List.filter g l.
Proof.
  intros Himp. induction l as [|x l IH]; cbn; [done|].
  destruct (g x) eqn:Hg.
  - rewrite (Himp x Hg). cbn. by rewrite Hg, IH.
  - destruct (g' x); cbn; by rewrite ?Hg, IH.
Qed.

Lemma single_role_by_row d u row :
  List.filter (fun x => bool_decide (UserRole.user_id x = u)) (user_roles d)
  = [row] ->
  single_role d u = Some (UserRole.role row).
Proof.
  intros Hrow. unfold single_role, select_user_roles.
  rewrite filter_filter_implied, Hrow; [done|].
  intros x Hx%bool_decide_eq_true. rewrite role_select_visible.
  cbn [session_of auth_uid sql_eq passes]. by rewrite bool_decide_true.
Qed.

(** X10: in a reachable state a sign-in that passes validation and the
    identity provider lands on the dashboard of the role the user holds:
    the admin dashboard exactly when [has_role] says admin, the student
    dashboard otherwise, with the success toast. *)
Theorem sign_in_lands_on_the_dashboard_of_the_role
    (is_email : string -> bool)
    (signIn_error : string -> string -> option string)
    (s : session) (d : db) (x : AuthUser.t) (form : Auth.signin_form) :
  reachable d ->
  x ∈ auth_users d ->
  is_email (trim (Auth.si_email form)) = true ->
  Auth.si_password form ≠ "" ->
  signIn_error (Auth.si_email form) (Auth.si_password form) = None ->
  Auth.navigated
    (handleSignIn is_email signIn_error (Some (AuthUser.id x)) d form)
  = Some (if has_role s d (Some (AuthUser.id x)) (Some admin)
          then "/admin" else "/student")
  /\ Auth.toasts
       (handleSignIn is_email signIn_error (Some (AuthUser.id x)) d form)
     = [toast_success "Signed in successfully!"].
Proof.
  intros Hreach Hx Hemail Hpw Hok.
  rewrite handleSignIn_cases, Hemail, Hok. cbn [negb].
  rewrite bool_decide_false by done. cbn [Auth.navigated Auth.toasts].
  split; [|reflexivity].
  destruct (the_role_row d (AuthUser.id x) Hreach) as (row & Hrow); [eauto|].
  rewrite (single_role_by_row d _ row Hrow), (has_role_by_row s d _ row admin Hrow).
  unfold dashboard_of. repeat case_bool_decide; congruence.
Qed.

Lemma sign_in_lands_on_the_dashboard_of_the_role_witness :
  Auth.navigated
    (handleSignIn demo_is_email (fun _ _ => None) (Some "u-2") Demo.accepted
       (Auth.mk_signin_form "admin@klu.edu" "klu@123"))
  = Some "/admin".
Proof.
  destruct (sign_in_lands_on_the_dashboard_of_the_role demo_is_email
              (fun _ _ => None) Demo.stranger Demo.accepted Demo.admin_user
              (Auth.mk_signin_form "admin@klu.edu" "klu@123"))
    as [Hnavigated _].
  - apply demo_accepted_reachable.
  - vm_compute. right. left.
  - reflexivity.
  - discriminate.
  - reflexivity.
  - etransitivity; [exact Hnavigated | vm_compute; reflexivity].
Defined.

(** ** The notification function, beyond the template *)

(** X16: the function answers a preflight with 200 and no body, and a body
    it cannot parse with 500 and the parser's message, in both cases
    whatever the mail service would do; every answer is 200 or 500, the
    500s are exactly the answers that carry an error message, and a mail
    service that refuses without a message yields the text Failed to send
    email. *)
Theorem handler_answers_200_or_500
    (resend resend' : Resend.email -> Resend.outcome) (req : Http.request) :
  (Http.method req = "OPTIONS" ->
   handler resend req = Http.mk_response 200 Http.no_body)
  /\ (Http.method req ≠ "OPTIONS" ->
      forall text, Http.json req = inl text ->
                   handler resend req
                   = Http.mk_response 500 (Http.json_error text))
  /\ (Http.method req = "OPTIONS" \/ (exists text, Http.json req = inl text) ->
      handler resend req = handler resend' req)
  /\ (Http.status (handler resend req) = 200
      \/ Http.status (handler resend req) = 500)
  /\ (Http.status (handler resend req) = 500
      <-> exists text, Http.content (handler resend req) = Http.json_error text)
  /\ (forall body data,
        Http.method req ≠ "OPTIONS" -> Http.json req = inr body ->
        resend (Resend.mk "KLU Internship Portal <onboarding@resend.dev>"
                  [EmailRequest.to body]
                  (compose_subject (EmailRequest.status body))
                  (compose_message (EmailRequest.status body)
                     (EmailRequest.feedback body)))
        = Resend.responds false data "" ->
        handler resend req
        = Http.mk_response 500 (Http.json_error "Failed to send email")).
Proof.
  unfold handler. split; [|split; [|split; [|split; [|split]]]].
  - intros Hm. by rewrite bool_decide_true.
  - intros Hm text Hjson. by rewrite bool_decide_false, Hjson.
  - intros [Hm | (text & Hjson)].
    + by rewrite !bool_decide_true.
    + rewrite Hjson. by case_bool_decide.
  - case_bool_decide; [by left|].
    destruct (Http.json req) as [text|body]; [by right|].
    destruct (resend _) as [text|[] data text]; cbn; auto.
  - case_bool_decide.
    + cbn. split; [discriminate | by intros (? & ?)].
    + destruct (Http.json req) as [text|body]; [cbn; split; eauto|].
      destruct (resend _) as [text|[] data text]; cbn; split; eauto;
        try discriminate; by intros (? & ?).
  - intros body data Hm Hjson Hresend.
    by rewrite bool_decide_false, Hjson, Hresend.
Qed.

Lemma invoke_via_None resend body :
  invoke_via resend body = None
  <-> exists data data_message,
        resend (Resend.mk "KLU Internship Portal <onboarding@resend.dev>"
                  [EmailRequest.to body]
                  (compose_subject (EmailRequest.status body))
                  (compose_message (EmailRequest.status body)
                     (EmailRequest.feedback body)))
        = Resend.responds true data data_message.
Proof.
  unfold invoke_via. rewrite handler_post.
  destruct (resend _) as [text|[] data text]; cbn; split;
    try discriminate; eauto; by intros (? & ? & ?).
Qed.

(** X21: from the click to the toast.  When an admin accepts or rejects an
    application and the invocation reaches the function of this
    repository, the mail service is handed one mail: to the address the
    page passed, with the subject and the template of the new status and
    the feedback entered; the page shows the success toast exactly when
    the mail service accepts that mail, and the warning otherwise. *)
Theorem the_mail_decides_the_toast
    (message : db_error -> string) (resend : Resend.email -> Resend.outcome)
    (s : session) (now : timestamptz)
    (applicationId newStatus studentEmail : string) (page : AdminDashboard.t) :
  has_role s (AdminDashboard.store page) (auth_uid s) (Some admin) = true ->
  newStatus ∈ ["accepted"; "rejected"] ->
  AdminDashboard.toasts
    (handleStatusUpdate message (invoke_via resend) s now applicationId
       newStatus studentEmail page)
  = AdminDashboard.toasts page
    ++ [match resend
                (Resend.mk "KLU Internship Portal <onboarding@resend.dev>"
                   [studentEmail]
                   (if bool_decide (newStatus = "accepted")
                    then accepted_subject else rejected_subject)
                   (if bool_decide (newStatus = "accepted")
                    then accepted_html
                           (lookup_or_empty (AdminDashboard.feedback page)
                              applicationId)
                    else rejected_html
                           (lookup_or_empty (AdminDashboard.feedback page)
                              applicationId))) with
        | Resend.responds true _ _ =>
            toast_success ("Application " +:+ newStatus +:+ " and email sent!")
        | _ => toast_error "Status updated but email notification failed"
        end].
Proof.
  intros Hadmin Hstatus. rewrite handleStatusUpdate_admin by done.
  cbn [AdminDashboard.toasts]. do 2 f_equal.
  unfold invoke_via. rewrite handler_post.
  cbn [EmailRequest.to EmailRequest.status EmailRequest.feedback].
  unfold compose_subject, compose_message, strict_eq_string.
  assert (bool_decide (js_string newStatus = js_string "accepted")
          = bool_decide (newStatus = "accepted")) as ->
    by (repeat case_bool_decide; congruence).
  destruct (bool_decide (newStatus = "accepted"));
    by destruct (resend _) as [text|[] data text].
Qed.

Lemma the_mail_decides_the_toast_witness :
  AdminDashboard.toasts
    (handleStatusUpdate demo_message
       (invoke_via (fun _ => Resend.responds false "{}" "Domain not verified"))
       Demo.the_admin 4 "a-1" "accepted" "student@klu.edu"
       (AdminDashboard.mk Demo.applied [] [] ∅ None))
  = [toast_error "Status updated but email notification failed"].
Proof.
  rewrite (the_mail_decides_the_toast demo_message
             (fun _ => Resend.responds false "{}" "Domain not verified")
             Demo.the_admin 4 "a-1" "accepted" "student@klu.edu"
             (AdminDashboard.mk Demo.applied [] [] ∅ None)).
  - reflexivity.
  - vm_compute. reflexivity.
  - left.
Defined.

(** ** The route guard *)

(** X17: while the session loads the guard shows the spinner and goes
    nowhere.  After that it shows the page exactly when it issues no
    redirect, and only to a signed-in user whose role is the required one
    when one is required; nobody signed in is sent to the sign-in page, a
    wrong role to the dashboard of the user's own role.  A signed-in user
    whose role is not known is sent to the student dashboard, where a
    guard that requires the student role shows nothing. *)
Theorem route_guard_shows_or_redirects (user : option uuid)
    (userRole requiredRole : option app_role) :
  (ProtectedRoute.render user true userRole requiredRole
     = ProtectedRoute.spinner
   /\ ProtectedRoute.effect user true userRole requiredRole = None)
  /\ (ProtectedRoute.render user false userRole requiredRole
        = ProtectedRoute.children
      <-> ProtectedRoute.effect user false userRole requiredRole = None)
  /\ (ProtectedRoute.render user false userRole requiredRole
        = ProtectedRoute.children ->
      is_Some user
      /\ forall r, requiredRole = Some r -> userRole = Some r)
  /\ (user = None ->
      ProtectedRoute.effect user false userRole requiredRole = Some "/auth")
  /\ (forall r, is_Some user -> requiredRole = Some r -> userRole ≠ Some r ->
      ProtectedRoute.effect user false userRole requiredRole
      = Some (if bool_decide (userRole = Some admin)
              then "/admin" else "/student"))
  /\ (is_Some user -> userRole = None ->
      ProtectedRoute.effect user false userRole (Some admin) = Some "/student"
      /\ ProtectedRoute.render user false userRole (Some student)
         = ProtectedRoute.nothing).
Proof.
  unfold ProtectedRoute.render, ProtectedRoute.effect, ProtectedRoute.wrong_role.
  split; [done|]. split; [|split; [|split; [|split]]].
  - destruct user; [|done]. destruct requiredRole; [|done].
    by case_bool_decide.
  - destruct user; [|done]. destruct requiredRole as [required|].
    + case_bool_decide; [|done]. cbn. intros _. split; [done|].
      by intros r [= <-].
    + intros _. split; [done | discriminate].
  - by intros ->.
  - intros r [u ->] -> Hrole. by rewrite bool_decide_false.
  - intros [u ->] ->. done.
Qed.
